(** * Session lifecycle of the backend template: auth service and auth middleware

    A shallow embedding of [makeAuthService] (core/services/auth.service.js:
    [login], [refreshToken], [logout]) and of [authMiddleware]
    (infra/security/auth.middleware.js), together with the collaborators they
    call: the JWT codec, the password hasher, the digest and the user
    repository.

    JavaScript objects are association lists from property names to values, a
    property that is not there reads as [JUndefined]; promises are functions
    from the world (user table and log) to an outcome that is either resolved
    or rejected with the error that was thrown. *)

From Stdlib Require Import ZArith.
From stdpp Require Import gmap strings list fin_maps pretty.

Open Scope string_scope.
Open Scope Z_scope.
Open Scope list_scope.

(** ** JavaScript values and objects *)

Inductive JsValue :=
| JUndefined
| JNull
| JNum (n : Z)
| JStr (s : string).

#[global] Instance JsValue_eq_dec : EqDecision JsValue.
Proof. solve_decision. Defined.

(** An object with flat properties, as the payloads and records here are. *)
Definition JsObject : Type := list (string * JsValue).

(** [o.key]: the first binding of [key], [undefined] when there is none. *)
Fixpoint get (o : JsObject) (key : string) : JsValue :=
  match o with
  | [] => JUndefined
  | (k, v) :: rest => if String.eqb k key then v else get rest key
  end.

(** JSON.stringify drops the properties whose value is [undefined]. *)
Fixpoint defined_props (o : JsObject) : JsObject :=
  match o with
  | [] => []
  | (_, JUndefined) :: rest => defined_props rest
  | kv :: rest => kv :: defined_props rest
  end.

(** ** Errors

    [UnauthorizedError] is the 401 subclass of AppError from
    core/errors/httpErrors.js; [JsonWebTokenError], [TokenExpiredError] and
    [NotBeforeError] are thrown by jsonwebtoken; [TypeError] by the language;
    [PrismaClientError] stands for the errors of the ORM client. *)
Inductive JsError :=
| UnauthorizedError (message : string)
| JsonWebTokenError (message : string)
| TokenExpiredError (message : string)
| NotBeforeError (message : string)
| TypeError (message : string)
| PrismaClientError (message : string).

#[global] Instance JsError_eq_dec : EqDecision JsError.
Proof. solve_decision. Defined.

(** [error.name]. AppError does not set it, so its subclasses keep "Error". *)
Definition error_name (e : JsError) : string :=
  match e with
  | UnauthorizedError _ => "Error"
  | JsonWebTokenError _ => "JsonWebTokenError"
  | TokenExpiredError _ => "TokenExpiredError"
  | NotBeforeError _ => "NotBeforeError"
  | TypeError _ => "TypeError"
  | PrismaClientError _ => "PrismaClientError"
  end.

(** The error kinds of the specification, as the errors the code throws. *)
Definition InvalidCredentials : JsError := UnauthorizedError "Invalid credentials".
Definition AccountNotActive : JsError := UnauthorizedError "Account is not active".
Definition InvalidRefreshToken : JsError := UnauthorizedError "Invalid refresh token".
Definition MissingToken : JsError := UnauthorizedError "No token provided".
Definition InvalidToken : JsError := UnauthorizedError "Invalid token".
Definition TokenExpired : JsError := UnauthorizedError "Token expired".
Definition SessionSuperseded : JsError := UnauthorizedError "Token is not valid".

(** ** The token codec (jsonwebtoken, HS256)

    A token is kept as what its compact serialization determines: the payload
    and the key its signature was made with. Signing is deterministic, so two
    tokens are the same string exactly when these agree. [Opaque] is a string
    that does not parse as a JWT. *)
Inductive Token :=
| Jwt (payload : JsObject) (key : string)
| Opaque (raw : string).

#[global] Instance Token_eq_dec : EqDecision Token.
Proof. solve_decision. Defined.

(** [Math.floor(Date.now() / 1000)], the clock being in milliseconds. *)
Definition clockTimestamp (now : Z) : Z := now / 1000.
Arguments clockTimestamp : simpl never.

(** [jwt.sign(payload, secret, { expiresIn })], [expiresIn] in seconds: the
    payload gets [iat] and [exp = iat + expiresIn]. *)
Definition jwt_sign (payload : JsObject) (secret : string) (expiresIn : Z) (now : Z) : Token :=
  let iat := clockTimestamp now in
  Jwt (defined_props payload ++ [("iat", JNum iat); ("exp", JNum (iat + expiresIn))]) secret.

(** [jwt.verify(token, secret)]: the decoded payload, or the error thrown.
    The signature is checked before the time claims. *)
Definition jwt_verify (token : Token) (secret : string) (now : Z) : JsError + JsObject :=
  match token with
  | Opaque _ => inl (JsonWebTokenError "jwt malformed")
  | Jwt payload key =>
      if negb (String.eqb key secret) then inl (JsonWebTokenError "invalid signature")
      else
        let check_exp :=
          match get payload "exp" with
          | JUndefined => inr payload
          | JNum exp =>
              if exp <=? clockTimestamp now then inl (TokenExpiredError "jwt expired")
              else inr payload
          | _ => inl (JsonWebTokenError "invalid exp value")
          end in
        match get payload "nbf" with
        | JUndefined => check_exp
        | JNum nbf =>
            if clockTimestamp now <? nbf then inl (NotBeforeError "jwt not active")
            else check_exp
        | _ => inl (JsonWebTokenError "invalid nbf value")
        end
  end.

(** The claims a token carries. *)
Definition claims (t : Token) : JsObject :=
  match t with
  | Jwt payload _ => payload
  | Opaque _ => []
  end.

(** ** The user table *)

Inductive Role := USER | ADMIN | SUPER_ADMIN.
Inductive Status := ACTIVE | INACTIVE | DELETED.

#[global] Instance Role_eq_dec : EqDecision Role.
Proof. solve_decision. Defined.
#[global] Instance Status_eq_dec : EqDecision Status.
Proof. solve_decision. Defined.

Definition Role_string (r : Role) : string :=
  match r with
  | USER => "USER"
  | ADMIN => "ADMIN"
  | SUPER_ADMIN => "SUPER_ADMIN"
  end.

Definition Status_string (s : Status) : string :=
  match s with
  | ACTIVE => "ACTIVE"
  | INACTIVE => "INACTIVE"
  | DELETED => "DELETED"
  end.

(** The columns of the model User of prisma/schema.prisma, as the project
    guide prints it, that the code here reads, writes or selects, under the
    names the schema gives them; the primary key [id] is the key of the
    table. Time stamps are clock readings in milliseconds. *)
Record User := mkUser {
  email : string;
  username : string;
  name : string;
  role : Role;
  status : Status;
  passwordHash : string;
  refreshTokenHash : option string;
  refreshTokenVersion : Z;
  createdAt : Z;
  lastLoginAt : option Z
}.

#[global] Instance User_eq_dec : EqDecision User.
Proof. solve_decision. Defined.

(** A record as the ORM returns it: the key and the columns. *)
Definition UserObject : Type := string * User.

(** [user.key] on a returned record, by property name: a name that is not
    one of the columns reads as [undefined]. *)
Definition user_prop (user : UserObject) (key : string) : JsValue :=
  let u := user.2 in
  if String.eqb key "id" then JStr user.1
  else if String.eqb key "email" then JStr (email u)
  else if String.eqb key "username" then JStr (username u)
  else if String.eqb key "name" then JStr (name u)
  else if String.eqb key "role" then JStr (Role_string (role u))
  else if String.eqb key "status" then JStr (Status_string (status u))
  else if String.eqb key "passwordHash" then JStr (passwordHash u)
  else if String.eqb key "refreshTokenHash" then
    match refreshTokenHash u with Some h => JStr h | None => JNull end
  else if String.eqb key "refreshTokenVersion" then JNum (refreshTokenVersion u)
  else if String.eqb key "createdAt" then JNum (createdAt u)
  else if String.eqb key "lastLoginAt" then
    match lastLoginAt u with Some t => JNum t | None => JNull end
  else JUndefined.

(** ** Promises over the world *)

Record World := mkWorld {
  users : gmap string User;
  logs : list (JsObject * string)
}.

Inductive Outcome (A : Type) :=
| Resolved (a : A) (w : World)
| Rejected (e : JsError) (w : World).
Arguments Resolved {A} a w.
Arguments Rejected {A} e w.

Definition Async (A : Type) : Type := World -> Outcome A.

Definition resolve {A} (a : A) : Async A := fun w => Resolved a w.
Definition throw {A} (e : JsError) : Async A := fun w => Rejected e w.
Definition await {A B} (p : Async A) (k : A -> Async B) : Async B :=
  fun w =>
    match p w with
    | Resolved a w' => k a w'
    | Rejected e w' => Rejected e w'
    end.

Notation "'let*' x := p 'in' k" := (await p (fun x => k))
  (at level 10, x pattern, p at level 100, k at level 200).

(** [logger.info(bindings, message)]. *)
Definition logger_info (bindings : JsObject) (message : string) : Async unit :=
  fun w => Resolved tt {| users := users w; logs := logs w ++ [(bindings, message)] |}.

(** ** The user repository *)

(** The [data] of an update: a column that is not named stays as it is. *)
Record UpdateData := mkUpdateData {
  data_refreshTokenHash : option (option string);
  data_lastLoginAt : option Z
}.

Definition apply_update (data : UpdateData) (u : User) : User :=
  {| email := email u;
     username := username u;
     name := name u;
     role := role u;
     status := status u;
     passwordHash := passwordHash u;
     refreshTokenHash := default (refreshTokenHash u) (data_refreshTokenHash data);
     refreshTokenVersion := refreshTokenVersion u;
     createdAt := createdAt u;
     lastLoginAt :=
       match data_lastLoginAt data with Some t => Some t | None => lastLoginAt u end |}.

(** The record whose [username] column is [uname], if any. *)
Definition find_by_username (table : gmap string User) (uname : string) : option UserObject :=
  head (filter (fun p : string * User => username p.2 = uname) (map_to_list table)).

(** [username] is a unique column: no two records share a user name. *)
Definition unique_usernames (table : gmap string User) : Prop :=
  forall i j ui uj,
    table !! i = Some ui -> table !! j = Some uj -> username ui = username uj -> i = j.

(** Modelled from the spec: [findByUsernameForAuth] of
    core/repositories/user.repository.js is not among the sources, the file
    that the project guide prints has no such function. The Credential Store
    "persists one record per user" and "exposes lookup-by-identifier": the
    lookup by user name returns the whole record of the user with that
    name, if any. *)
Definition userRepository_findByUsernameForAuth (uname : string) : Async (option UserObject) :=
  fun w => Resolved (find_by_username (users w) uname) w.

(** The object the ORM returns for a record when it is asked for the
    columns of a [select]. *)
Definition select_columns (columns : list string) (user : UserObject) : JsObject :=
  map (fun column => (column, user_prop user column)) columns.

(** The [select] of [findById] in core/repositories/user.repository.js, as
    the project guide prints that file. *)
Definition findById_select : list string :=
  ["id"; "email"; "username"; "name"; "role"; "status"; "createdAt"; "lastLoginAt"].

(** [findById(id)] of that file: the selected columns of the record with
    that id, or null. An id that is not a string is refused by the ORM
    client. *)
Definition userRepository_findById (id : JsValue) : Async (option JsObject) :=
  fun w =>
    match id with
    | JStr i =>
        Resolved ((fun u => select_columns findById_select (i, u)) <$> users w !! i) w
    | _ => Rejected (PrismaClientError "Invalid `prisma.user.findUnique()` invocation") w
    end.

(** [update(id, data)] of that file: one write of the named columns of the
    record with that id. The ORM client rejects when there is no such
    record. *)
Definition userRepository_update (id : string) (data : UpdateData) : Async unit :=
  fun w =>
    match users w !! id with
    | Some u => Resolved tt {| users := <[id := apply_update data u]> (users w); logs := logs w |}
    | None => Rejected (PrismaClientError "Record to update not found") w
    end.

(** The repository as the service is given it. *)
Record UserRepository := mkUserRepository {
  findByUsernameForAuth : string -> Async (option UserObject);
  findById : JsValue -> Async (option JsObject);
  update : string -> UpdateData -> Async unit
}.

(** [makeUserRepository({ prisma })], which the container registers as
    userRepository. *)
Definition makeUserRepository : UserRepository :=
  {| findByUsernameForAuth := userRepository_findByUsernameForAuth;
     findById := userRepository_findById;
     update := userRepository_update |}.

(** The service does not name its repository: [makeAuthService] takes it as
    a parameter, the container passes [makeUserRepository] and the tests of
    the guide a mock. The repositories that differ from [makeUserRepository]
    in one thing, that the [select] of [findById] has the columns [extra]
    besides its own; with no further column it is [makeUserRepository]. *)
Definition repository_selecting (extra : list string) : UserRepository :=
  {| findByUsernameForAuth := userRepository_findByUsernameForAuth;
     findById :=
       fun id w =>
         match id with
         | JStr i =>
             Resolved
               ((fun u => select_columns (findById_select ++ extra) (i, u))
                  <$> users w !! i) w
         | _ => Rejected (PrismaClientError "Invalid `prisma.user.findUnique()` invocation") w
         end;
     update := userRepository_update |}.

(** The one among them whose [findById] returns every column, as [findById]
    of core/repositories/auth.repository.js does. *)
Definition whole_record_repository : UserRepository :=
  repository_selecting ["passwordHash"; "refreshTokenHash"; "refreshTokenVersion"].

(** ** The auth service (core/services/auth.service.js) *)

(** The settings the service reads from [env]; the two life times are in
    seconds, as jsonwebtoken takes them once the duration text is parsed. *)
Record Env := mkEnv {
  JWT_SECRET : string;
  JWT_EXPIRES_IN : Z;
  JWT_REFRESH_SECRET : string;
  JWT_REFRESH_EXPIRES_IN : Z
}.

(** What [login] returns. *)
Record LoginResult := mkLoginResult {
  accessToken : Token;
  refreshToken : Token;
  user : JsObject
}.

Module AuthService.
Section makeAuthService.

(** The repository that [makeAuthService] is given. *)
Variable userRepository : UserRepository.

(** [bcrypt.compare(password, hash)]. *)
Variable bcrypt_compare : string -> string -> bool.

(** [crypto.createHash("sha256").update(token).digest("hex")]. *)
Variable sha256_hex : Token -> string.

Variable env : Env.

Definition login (uname password : string) (now : Z) : Async LoginResult :=
  let* found := findByUsernameForAuth userRepository uname in
  match found with
  | None => throw (UnauthorizedError "Invalid credentials")
  | Some user =>
      if bool_decide (status user.2 = DELETED) then
        throw (UnauthorizedError "Invalid credentials")
      else
        let isPasswordValid := bcrypt_compare password (passwordHash user.2) in
        if negb isPasswordValid then
          throw (UnauthorizedError "Invalid credentials")
        else if negb (String.eqb (Status_string (status user.2)) "ACTIVE") then
          throw (UnauthorizedError "Account is not active")
        else
          let accessToken :=
            jwt_sign [("userId", JStr user.1);
                      ("role", JStr (Role_string (role user.2)));
                      ("username", JStr (username user.2));
                      ("refreshVersion", user_prop user "refreshVersion")]
                     (JWT_SECRET env) (JWT_EXPIRES_IN env) now in
          let refreshToken :=
            jwt_sign [("userId", JStr user.1)]
                     (JWT_REFRESH_SECRET env) (JWT_REFRESH_EXPIRES_IN env) now in
          let refreshTokenHash := sha256_hex refreshToken in
          let* _ := update userRepository user.1
                      {| data_refreshTokenHash := Some (Some refreshTokenHash);
                         data_lastLoginAt := Some now |} in
          let* _ := logger_info [("userId", JStr user.1)] "User logged in" in
          resolve
            {| accessToken := accessToken;
               refreshToken := refreshToken;
               user := [("id", JStr user.1);
                        ("email", JStr (email user.2));
                        ("username", JStr (username user.2));
                        ("name", JStr (name user.2));
                        ("role", JStr (Role_string (role user.2)))] |}
  end.

(** [refreshToken({ refreshToken })]; the result is the [accessToken] of the
    object the service returns. *)
Definition refreshToken (refreshToken : Token) (now : Z) : Async Token :=
  match jwt_verify refreshToken (JWT_REFRESH_SECRET env) now with
  | inl _ => throw (UnauthorizedError "Invalid refresh token")
  | inr decoded =>
      let* found := findById userRepository (get decoded "userId") in
      match found with
      | None => throw (UnauthorizedError "Invalid refresh token")
      | Some user =>
          if negb (bool_decide (get user "status" = JStr "ACTIVE")) then
            throw (UnauthorizedError "Invalid refresh token")
          else
            let hashedToken := sha256_hex refreshToken in
            if negb (bool_decide (get user "refreshTokenHash" = JStr hashedToken)) then
              throw (UnauthorizedError "Invalid refresh token")
            else
              let newAccessToken :=
                jwt_sign [("userId", get user "id"); ("role", get user "role")]
                         (JWT_SECRET env) (JWT_EXPIRES_IN env) now in
              resolve newAccessToken
      end
  end.

Definition logout (userId : string) : Async unit :=
  let* _ := update userRepository userId
              {| data_refreshTokenHash := Some None; data_lastLoginAt := None |} in
  logger_info [("userId", JStr userId)] "User logged out".

End makeAuthService.
End AuthService.

(** ** The auth middleware (infra/security/auth.middleware.js) *)

(** The [authorization] header of a request: [Bearer t] is the text
    "Bearer " followed by the token [t], so that [substring(7)] is [t];
    [OtherHeader] is any other text, the empty one included, and what follows
    "Bearer " in such a text is not a JWT. *)
Inductive Authorization :=
| Bearer (token : Token)
| OtherHeader (value : string).

(** [authHeader.substring(7)] for a header that [startsWith("Bearer ")],
    [None] for one that does not. *)
Definition bearer_token (authHeader : Authorization) : option Token :=
  match authHeader with
  | Bearer token => Some token
  | OtherHeader value =>
      if String.prefix "Bearer " value then
        Some (Opaque (String.substring 7 (String.length value - 7) value))
      else None
  end.

Record Request := mkRequest {
  headers_authorization : option Authorization
}.

(** How the middleware leaves: [next()] after [req.user = decoded], or
    [next(error)]. *)
Inductive Continuation :=
| Next (req_user : JsObject)
| NextError (error : JsError).

Module AuthMiddleware.
Section authMiddleware.

(** The conversion of a string to a number that [==] applies when it
    compares a number with a string; [None] is NaN. *)
Variable StringToNumber : string -> option Z.

(** [env.JWT_SECRET] of the configuration module. *)
Variable JWT_SECRET : string.

(** [findById] of the repository that the request scope resolves under the
    name authServiceRepository: the error it rejects with, or the record
    or null it resolves to. *)
Variable authServiceRepository_findById : JsObject -> JsError + option UserObject.

(** [a == b]. *)
Definition loose_eq (a b : JsValue) : bool :=
  match a, b with
  | JUndefined, JUndefined | JUndefined, JNull
  | JNull, JUndefined | JNull, JNull => true
  | JNum x, JNum y => x =? y
  | JStr x, JStr y => String.eqb x y
  | JNum x, JStr s | JStr s, JNum x =>
      match StringToNumber s with
      | Some y => x =? y
      | None => false
      end
  | _, _ => false
  end.

(** The body of the [try]: the decoded claims, or the error thrown. *)
Definition try_body (req : Request) (now : Z) : JsError + JsObject :=
  match headers_authorization req ≫= bearer_token with
  | None => inl (UnauthorizedError "No token provided")
  | Some token =>
      match jwt_verify token JWT_SECRET now with
      | inl error => inl error
      | inr decoded =>
          match authServiceRepository_findById [("id", get decoded "id")] with
          | inl error => inl error
          | inr None =>
              inl (TypeError "Cannot read properties of null (reading 'refresh_version')")
          | inr (Some user) =>
              if negb (loose_eq (user_prop user "refresh_version")
                                (get decoded "refresh_version")) then
                inl (UnauthorizedError "Token is not valid")
              else inr decoded
          end
      end
  end.

(** The [catch]: what is passed to [next] for the error caught. *)
Definition catch_block (error : JsError) : Continuation :=
  if String.eqb (error_name error) "JsonWebTokenError" then
    NextError (UnauthorizedError "Invalid token")
  else if String.eqb (error_name error) "TokenExpiredError" then
    NextError (UnauthorizedError "Token expired")
  else NextError error.

Definition authMiddleware (req : Request) (now : Z) : Continuation :=
  match try_body req now with
  | inr decoded => Next decoded
  | inl error => catch_block error
  end.

End authMiddleware.
End AuthMiddleware.

(** ** Settled promises *)

(** What a promise settled with: the value it resolved to or the error it
    rejected with. *)
Definition settled {A} (o : Outcome A) : JsError + A :=
  match o with
  | Resolved a _ => inr a
  | Rejected e _ => inl e
  end.

(** The world a promise leaves behind. *)
Definition world_after {A} (o : Outcome A) : World :=
  match o with
  | Resolved _ w => w
  | Rejected _ w => w
  end.

(** ** The error handler (api/middleware/errorHandler.middleware.js) *)

Module ErrorHandler.

(** An error as the handler reads it: [statusCode] is [None] when the error
    has no such property, [isOperational] is the truth of that property. *)
Record ErrorObject := mkErrorObject {
  message : string;
  statusCode : option Z;
  isOperational : bool;
  stack : string
}.

(** The request as the handler reads it; [user] is [None] when no
    middleware has set [req.user]. *)
Record ErrorRequest := mkErrorRequest {
  url : string;
  method : string;
  user : option JsObject
}.

(** The bindings of the record that [logger.error] is given. *)
Record ErrorLog := mkErrorLog {
  log_err : ErrorObject;
  log_url : string;
  log_method : string;
  log_userId : JsValue;
  log_message : string
}.

(** What [res.status(statusCode).json(...)] sends; [res_stack] is [None]
    when the body has no [stack] property. *)
Record ErrorResponse := mkErrorResponse {
  res_status : Z;
  res_success : bool;
  res_error : string;
  res_stack : option string
}.

(** [errorHandler(err, req, res, next)] with [env.NODE_ENV] of the
    configuration: the record logged and the response sent. *)
Definition errorHandler (NODE_ENV : string) (err : ErrorObject) (req : ErrorRequest)
  : ErrorLog * ErrorResponse :=
  let logged :=
    {| log_err := err;
       log_url := url req;
       log_method := method req;
       log_userId :=
         match user req with
         | Some u => get u "userId"
         | None => JUndefined
         end;
       log_message := "Request error" |} in
  let statusCode :=
    match statusCode err with
    | Some code => if code =? 0 then 500 else code
    | None => 500
    end in
  let message := if isOperational err then message err else "Internal server error" in
  (logged,
   {| res_status := statusCode;
      res_success := false;
      res_error := message;
      res_stack := if String.eqb NODE_ENV "development" then Some (stack err) else None |}).

(** The object that a thrown error is. UnauthorizedError is the AppError with
    status 401, and an AppError is operational; the errors of the language
    and of the libraries have neither property. *)
Definition error_object (e : JsError) (stack : string) : ErrorObject :=
  {| message :=
       match e with
       | UnauthorizedError m | JsonWebTokenError m | TokenExpiredError m
       | NotBeforeError m | TypeError m | PrismaClientError m => m
       end;
     statusCode := match e with UnauthorizedError _ => Some 401 | _ => None end;
     isOperational := match e with UnauthorizedError _ => true | _ => false end;
     stack := stack |}.

End ErrorHandler.

(** ** The auth controller (api/v1/auth/auth.controller.js) *)

(** The settings of [env] that the controller reads besides the ones of the
    service; a setting that is not given is [None]. *)
Record CookieEnv := mkCookieEnv {
  NODE_ENV : string;
  COOKIE_SECURE : option bool;
  COOKIE_DOMAIN : option string
}.

(** The options of [res.cookie] and [res.clearCookie]; an option that is not
    named, or whose value is undefined, is [None]. *)
Record CookieOptions := mkCookieOptions {
  httpOnly : bool;
  secure : option bool;
  sameSite : string;
  maxAge : option Z;
  path : string;
  domain : option string
}.

Inductive CookieOp :=
| SetCookie (cookie : string) (value : Token) (options : CookieOptions)
| ClearCookie (cookie : string) (options : CookieOptions).

(** The bodies that are sent as JSON. *)
#[local] Unset Elimination Schemes.
Inductive Json :=
| JsonNull
| JsonBool (b : bool)
| JsonNumber (n : Z)
| JsonString (s : string)
| JsonToken (t : Token)
| JsonObject (fields : list (string * Json)).
#[local] Set Elimination Schemes.

(** A flat object as JSON: undefined properties are left out. *)
Definition json_of_object (o : JsObject) : Json :=
  JsonObject
    (omap (fun kv : string * JsValue =>
             match kv.2 with
             | JUndefined => None
             | JNull => Some (kv.1, JsonNull)
             | JNum n => Some (kv.1, JsonNumber n)
             | JStr s => Some (kv.1, JsonString s)
             end) o).

(** What a handler has done with [res]: the cookies set or cleared, the
    status and the body. *)
Record Response := mkResponse {
  res_cookies : list CookieOp;
  res_statusCode : Z;
  res_json : Json
}.

(** How a handler ends: a response sent, or [next(error)]. *)
Inductive Handled :=
| Sent (res : Response)
| NextWith (error : JsError).

(** [try { ... } catch (error) { next(error) }] around the body of a
    handler. *)
Definition catch_next (body : Async Handled) : Async Handled :=
  fun w =>
    match body w with
    | Resolved h w' => Resolved h w'
    | Rejected error w' => Resolved (NextWith error) w'
    end.

Module AuthController.
Section authController.

Variable userRepository : UserRepository.
Variable bcrypt_compare : string -> string -> bool.
Variable sha256_hex : Token -> string.
Variable env : Env.
Variable cookieEnv : CookieEnv.

(** [parseExpiryToMs] of utils/index.js, which is not among the sources,
    applied to the life time of the refresh token as [env] has it. *)
Variable parseExpiryToMs : Z -> Z.

(** The options of the cookie that [login] sets. *)
Definition login_cookie_options : CookieOptions :=
  {| httpOnly := true;
     secure := if String.eqb (NODE_ENV cookieEnv) "production" then Some true
               else COOKIE_SECURE cookieEnv;
     sameSite := if String.eqb (NODE_ENV cookieEnv) "production" then "strict" else "lax";
     maxAge := Some (parseExpiryToMs (JWT_REFRESH_EXPIRES_IN env));
     path := "/api/v1/auth";
     domain := COOKIE_DOMAIN cookieEnv |}.

(** The options that [logout] clears the cookie with. *)
Definition logout_cookie_options : CookieOptions :=
  {| httpOnly := true;
     secure := Some (String.eqb (NODE_ENV cookieEnv) "production");
     sameSite := if String.eqb (NODE_ENV cookieEnv) "production" then "strict" else "lax";
     maxAge := None;
     path := "/api/v1/auth";
     domain := None |}.

(** [login(req, res, next)], [req.body] being the user name and the
    password. *)
Definition login (uname password : string) (now : Z) : Async Handled :=
  catch_next
    (let* result :=
       AuthService.login userRepository bcrypt_compare sha256_hex env uname password now in
     resolve
       (Sent {| res_cookies :=
                  [SetCookie "refreshToken" (refreshToken result) login_cookie_options];
                res_statusCode := 200;
                res_json :=
                  JsonObject
                    [("success", JsonBool true);
                     ("data",
                      JsonObject [("accessToken", JsonToken (accessToken result));
                                  ("user", json_of_object (user result))])] |})).

(** [refreshToken(req, res, next)], [cookie] being [req.cookies.refreshToken]:
    [None] when there is no such cookie, the empty text when it is empty. *)
Definition refreshToken (cookie : option Token) (now : Z) : Async Handled :=
  catch_next
    (match cookie with
     | None | Some (Opaque "") =>
         resolve
           (Sent {| res_cookies := [];
                    res_statusCode := 401;
                    res_json :=
                      JsonObject [("success", JsonBool false);
                                  ("error", JsonString "Refresh token not found")] |})
     | Some refreshToken =>
         let* result :=
           AuthService.refreshToken userRepository sha256_hex env refreshToken now in
         resolve
           (Sent {| res_cookies := [];
                    res_statusCode := 200;
                    res_json :=
                      JsonObject
                        [("success", JsonBool true);
                         ("data", JsonObject [("accessToken", JsonToken result)])] |})
     end).

(** [logout(req, res, next)], [req_user] being [req.user]. The service
    passes [req.user.userId] to the update of the repository, which the ORM
    client refuses when it is not a string. *)
Definition logout (req_user : option JsObject) : Async Handled :=
  catch_next
    (match req_user with
     | None => throw (TypeError "Cannot read properties of undefined (reading 'userId')")
     | Some u =>
         match get u "userId" with
         | JStr userId =>
             let* _ := AuthService.logout userRepository userId in
             resolve
               (Sent {| res_cookies := [ClearCookie "refreshToken" logout_cookie_options];
                        res_statusCode := 200;
                        res_json :=
                          JsonObject [("success", JsonBool true);
                                      ("message", JsonString "Logged out successfully")] |})
         | _ => throw (PrismaClientError "Invalid `prisma.user.update()` invocation")
         end
     end).

End authController.
End AuthController.

(** A client clears a cookie only when it is told so with the attributes the
    cookie was set with, the life time apart: the same flags, the same path
    and the same domain. *)
Definition same_cookie_attributes (a b : CookieOptions) : bool :=
  Bool.eqb (httpOnly a) (httpOnly b)
  && Bool.eqb (default false (secure a)) (default false (secure b))
  && String.eqb (sameSite a) (sameSite b)
  && String.eqb (path a) (path b)
  && bool_decide (domain a = domain b).

(** ** The validation middleware (api/middleware/validate.middleware.js) *)

Module Validate.
Section validate.

(** The values of [req.body], [req.query] and [req.params], before and after
    parsing. *)
Variable V : Type.

(** What a custom [mapDetails] returns. *)
Variable D : Type.

(** The object [{ body, query, params }]; a part that is undefined, or not
    there, is [None]. *)
Record Envelope := mkEnvelope {
  body : option V;
  query : option V;
  params : option V
}.

(** Which of [schema.shape.body], [.query], [.params] are defined. *)
Record Shape := mkShape {
  shape_body : bool;
  shape_query : bool;
  shape_params : bool
}.

Inductive PathSegment :=
| Key (k : string)
| Index (i : Z).

(** [issue.path]: an array of keys and indices, or something else, of which
    [String(path ?? "")] is kept. *)
Inductive IssuePath :=
| PathArray (segments : list PathSegment)
| PathOther (text : string).

Record Issue := mkIssue {
  issue_path : IssuePath;
  issue_message : string;
  issue_code : string;
  issue_expected : option string;
  issue_received : option string;
  issue_minimum : option Z;
  issue_maximum : option Z
}.

(** The [base] detail of an issue. *)
Record Detail := mkDetail {
  detail_path : string;
  detail_message : string;
  detail_code : string;
  detail_expected : option string;
  detail_received : option string;
  detail_minimum : option Z;
  detail_maximum : option Z
}.

Inductive ParseResult :=
| ParseSuccess (data : Envelope)
| ParseError (issues : list Issue).

(** A schema: its [shape], [None] when it has none, and what
    [safeParseAsync] resolves to. *)
Record Schema := mkSchema {
  shape : option Shape;
  safeParseAsync : Envelope -> ParseResult
}.

(** [opts]; an option that is not given is [None]. *)
Record Opts := mkOpts {
  assign : option bool;
  statusCode : option Z;
  mapDetails : option (Issue -> Detail -> D)
}.

(** The request: the three parts and [req.validated]. *)
Record ValidatedRequest := mkValidatedRequest {
  req_body : option V;
  req_query : option V;
  req_params : option V;
  req_validated : option Envelope
}.

(** The AppError that a failed validation passes on. *)
Record ValidationError := mkValidationError {
  error_message : string;
  error_statusCode : Z;
  error_code : string;
  error_isOperational : bool;
  error_details : list (Detail + D)
}.

(** How the middleware leaves: the request as it is then, and the error given
    to [next], if any. *)
Record Validated := mkValidated {
  request : ValidatedRequest;
  next_error : option ValidationError
}.

(** [path.join(".")]. *)
Fixpoint join_path (segments : list PathSegment) : string :=
  let text seg := match seg with Key k => k | Index i => pretty i end in
  match segments with
  | [] => ""
  | [seg] => text seg
  | seg :: rest => text seg +:+ "." +:+ join_path rest
  end.

(** The input that is parsed: only the parts the schema expects, all three
    when the schema has no shape. *)
Definition build_input (schema : Schema) (req : ValidatedRequest) : Envelope :=
  match shape schema with
  | Some sh =>
      {| body := if shape_body sh then req_body req else None;
         query := if shape_query sh then req_query req else None;
         params := if shape_params sh then req_params req else None |}
  | None =>
      {| body := req_body req; query := req_query req; params := req_params req |}
  end.

(** The detail of one issue. *)
Definition map_issue (opts : Opts) (i : Issue) : Detail + D :=
  let base :=
    {| detail_path :=
         match issue_path i with
         | PathArray segments => join_path segments
         | PathOther text => text
         end;
       detail_message := issue_message i;
       detail_code := issue_code i;
       detail_expected := issue_expected i;
       detail_received := issue_received i;
       detail_minimum := issue_minimum i;
       detail_maximum := issue_maximum i |} in
  match mapDetails opts with
  | Some f => inr (f i base)
  | None => inl base
  end.

(** [validate(schema, opts)(req, _res, next)]. *)
Definition validate (schema : Schema) (opts : Opts) (req : ValidatedRequest) : Validated :=
  let assign := default false (assign opts) in
  let statusCode := default 422 (statusCode opts) in
  match safeParseAsync schema (build_input schema req) with
  | ParseSuccess data =>
      let keep (parsed current : option V) :=
        match parsed with Some v => Some v | None => current end in
      {| request :=
           if assign then
             {| req_body := keep (body data) (req_body req);
                req_query := keep (query data) (req_query req);
                req_params := keep (params data) (req_params req);
                req_validated := Some data |}
           else
             {| req_body := req_body req;
                req_query := req_query req;
                req_params := req_params req;
                req_validated := Some data |};
         next_error := None |}
  | ParseError issues =>
      {| request := req;
         next_error :=
           Some {| error_message := "Validation Error";
                   error_statusCode := statusCode;
                   error_code := "VALIDATION_ERROR";
                   error_isOperational := true;
                   error_details := map (map_issue opts) issues |} |}
  end.

End validate.
End Validate.

(** ** The authorization gate and the users router *)






Section usersRouter.

Variable StringToNumber : string -> option Z.
Variable JWT_SECRET : string.
Variable authServiceRepository_findById : JsObject -> JsError + option UserObject.


End usersRouter.

(** ** The rate limiters (api/middleware/ratelimit.middleware.js) *)

Inductive Limiter :=
| authLimiter
| apiLimiter
| strictLimiter
| uploadLimiter.

Definition windowMs (limiter : Limiter) : Z :=
  match limiter with
  | authLimiter => 15 * 60 * 1000
  | apiLimiter => 15 * 60 * 1000
  | strictLimiter => 60 * 60 * 1000
  | uploadLimiter => 15 * 60 * 1000
  end.

(** [max], for [env.NODE_ENV] of the configuration. *)
Definition limiter_max (NODE_ENV : string) (limiter : Limiter) : Z :=
  match limiter with
  | authLimiter => 5
  | apiLimiter => if String.eqb NODE_ENV "production" then 100 else 1000
  | strictLimiter => 3
  | uploadLimiter => 10
  end.

(** [Math.ceil(ms / 1000)] for a time in whole milliseconds. *)
Definition ceil_seconds (ms : Z) : Z := - ((- ms) / 1000).

(** What the [handler] of a limiter sends. *)
Record TooManyRequests := mkTooManyRequests {
  limit_status : Z;
  limit_success : bool;
  limit_error : string;
  retryAfter : Z
}.

(** [handler(req, res)], [resetTime] being
    [req.rateLimit.resetTime.getTime()]. *)
Definition limiter_handler (limiter : Limiter) (resetTime : Z) : TooManyRequests :=
  {| limit_status := 429;
     limit_success := false;
     limit_error :=
       match limiter with
       | authLimiter => "Too many authentication attempts. Please try again later."
       | apiLimiter => "Too many requests. Please slow down."
       | strictLimiter => "Too many attempts. Please try again in 1 hour."
       | uploadLimiter => "Upload limit exceeded. Please try again later."
       end;
     retryAfter := ceil_seconds resetTime |}.

(** ** Test doubles and sample data *)

(** A password hasher for the examples: the hash of [p] is "bcrypt:" ++ [p]. *)
Definition stub_compare (password hash : string) : bool :=
  String.eqb hash ("bcrypt:" +:+ password).

Definition render_value (v : JsValue) : string :=
  match v with
  | JUndefined => "undefined"
  | JNull => "null"
  | JNum n => pretty n
  | JStr s => s
  end.

(** A digest for the examples: the token written out in full. *)
Definition stub_digest (t : Token) : string :=
  match t with
  | Jwt payload key =>
      foldr (fun kv acc => kv.1 +:+ "=" +:+ render_value kv.2 +:+ ";" +:+ acc) key payload
  | Opaque raw => raw
  end.

Definition test_env : Env :=
  {| JWT_SECRET := "access-secret";
     JWT_EXPIRES_IN := 900;
     JWT_REFRESH_SECRET := "refresh-secret";
     JWT_REFRESH_EXPIRES_IN := 604800 |}.

Definition alice : User :=
  {| email := "alice@example.com";
     username := "alice";
     name := "Alice";
     role := USER;
     status := ACTIVE;
     passwordHash := "bcrypt:correct";
     refreshTokenHash := None;
     refreshTokenVersion := 0;
     createdAt := 1690000000000;
     lastLoginAt := None |}.

Definition world0 : World := {| users := {[ "u1" := alice ]}; logs := [] |}.

(** The account of the examples after a forced log out of all sessions:
    the same record with the next [refreshTokenVersion]. *)
Definition alice_bumped : User :=
  {| email := email alice;
     username := username alice;
     name := name alice;
     role := role alice;
     status := status alice;
     passwordHash := passwordHash alice;
     refreshTokenHash := None;
     refreshTokenVersion := 1;
     createdAt := createdAt alice;
     lastLoginAt := lastLoginAt alice |}.

(** A repository that resolves every lookup to the bumped record. *)
Definition stub_findById (_ : JsObject) : JsError + option UserObject :=
  inr (Some ("u1", alice_bumped)).

(** A repository that finds nobody. *)
Definition stub_findNobody (_ : JsObject) : JsError + option UserObject :=
  inr None.

(** String to number conversion for the examples: every string is NaN. *)
Definition stub_StringToNumber (_ : string) : option Z := None.

(** The moment of the login of the examples, and the tokens it issues. *)
Definition t0 : Z := 1700000000123.

Definition alice_access_token : Token :=
  jwt_sign [("userId", JStr "u1"); ("role", JStr "USER"); ("username", JStr "alice")]
           "access-secret" 900 t0.

Definition alice_refresh_token : Token :=
  jwt_sign [("userId", JStr "u1")] "refresh-secret" 604800 t0.

(** The world after that login. *)
Definition world1 : World :=
  {| users :=
       {[ "u1" := apply_update
                    {| data_refreshTokenHash := Some (Some (stub_digest alice_refresh_token));
                       data_lastLoginAt := Some t0 |} alice ]};
     logs := [([("userId", JStr "u1")], "User logged in")] |}.

(** An account that is suspended, in a table of its own. *)
Definition carol : User :=
  {| email := "carol@example.com";
     username := "carol";
     name := "Carol";
     role := USER;
     status := INACTIVE;
     passwordHash := "bcrypt:secret";
     refreshTokenHash := None;
     refreshTokenVersion := 0;
     createdAt := 1690000000000;
     lastLoginAt := None |}.

Definition world_suspended : World := {| users := {[ "u2" := carol ]}; logs := [] |}.

(** Settings of the controller for the examples: a development server
    behind HTTPS, with cookies for a domain of its own. *)
Definition test_cookie_env : CookieEnv :=
  {| NODE_ENV := "development";
     COOKIE_SECURE := Some true;
     COOKIE_DOMAIN := Some "example.com" |}.

(** Settings of a production server without a cookie domain. *)
Definition production_cookie_env : CookieEnv :=
  {| NODE_ENV := "production";
     COOKIE_SECURE := None;
     COOKIE_DOMAIN := None |}.

(** The conversion of the life time of the refresh token, given in seconds,
    to milliseconds. *)
Definition stub_parseExpiryToMs (seconds : Z) : Z := seconds * 1000.

(** A repository that resolves every lookup to the record of the examples. *)
Definition stub_findAlice (_ : JsObject) : JsError + option UserObject :=
  inr (Some ("u1", alice)).

(** A schema for a body alone, which accepts a body that is there and
    reports one issue otherwise. *)
Definition body_schema : Validate.Schema string :=
  {| Validate.shape :=
       Some {| Validate.shape_body := true;
               Validate.shape_query := false;
               Validate.shape_params := false |};
     Validate.safeParseAsync :=
       fun input =>
         match Validate.body string input with
         | Some b =>
             Validate.ParseSuccess string
               {| Validate.body := Some b; Validate.query := None; Validate.params := None |}
         | None =>
             Validate.ParseError string
               [{| Validate.issue_path := Validate.PathArray [Validate.Key "body"];
                   Validate.issue_message := "Required";
                   Validate.issue_code := "invalid_type";
                   Validate.issue_expected := Some "object";
                   Validate.issue_received := Some "undefined";
                   Validate.issue_minimum := None;
                   Validate.issue_maximum := None |}]
         end |}.

Definition default_opts : Validate.Opts unit :=
  {| Validate.assign := None; Validate.statusCode := None; Validate.mapDetails := None |}.

(** A second account, logged in since [t0], beside the one of the
    examples. *)
Definition dave_refresh_token : Token :=
  jwt_sign [("userId", JStr "u3")] "refresh-secret" 604800 t0.

Definition dave : User :=
  {| email := "dave@example.com";
     username := "dave";
     name := "Dave";
     role := ADMIN;
     status := ACTIVE;
     passwordHash := "bcrypt:hunter2";
     refreshTokenHash := Some (stub_digest dave_refresh_token);
     refreshTokenVersion := 0;
     createdAt := 1690000000000;
     lastLoginAt := Some t0 |}.

Definition world_two : World :=
  {| users := {[ "u1" := alice; "u3" := dave ]}; logs := [] |}.


(** * Properties *)

(** ** The user table *)

Lemma find_by_username_Some (table : gmap string User) uname id u :
  find_by_username table uname = Some (id, u) ->
  table !! id = Some u /\ username u = uname.
Proof.
  unfold find_by_username. intros Hhead.
  apply head_Some_elem_of, list_elem_of_filter in Hhead as [Hname Hin].
  apply elem_of_map_to_list in Hin. auto.
Qed.

Lemma find_by_username_unique (table : gmap string User) uname id u :
  unique_usernames table ->
  table !! id = Some u ->
  username u = uname ->
  find_by_username table uname = Some (id, u).
Proof.
  intros Huniq Hlook Hname.
  destruct (find_by_username table uname) as [[j uj]|] eqn:Hfind.
  - apply find_by_username_Some in Hfind as [Hj Hnj].
    assert (j = id) as -> by (eapply Huniq; eauto; congruence).
    rewrite Hlook in Hj. by injection Hj as ->.
  - unfold find_by_username in Hfind. apply head_None in Hfind.
    exfalso. eapply filter_nil_not_elem_of with (x := (id, u)) in Hfind; [|done].
    apply Hfind, elem_of_map_to_list. done.
Qed.

Lemma unique_usernames_update (table : gmap string User) id u data :
  unique_usernames table ->
  table !! id = Some u ->
  unique_usernames (<[id := apply_update data u]> table).
Proof.
  intros Huniq Hlook i j ui uj Hi Hj Heq.
  destruct (decide (id = i)) as [<-|Hi'], (decide (id = j)) as [<-|Hj']; [done|..].
  - rewrite lookup_insert_eq in Hi. rewrite lookup_insert_ne in Hj by done.
    injection Hi as <-. simpl in Heq. eapply Huniq; eauto.
  - rewrite lookup_insert_eq in Hj. rewrite lookup_insert_ne in Hi by done.
    injection Hj as <-. simpl in Heq. eapply Huniq; eauto.
  - rewrite lookup_insert_ne in Hi, Hj by done. eapply Huniq; eauto.
Qed.

Lemma userRepository_update_found w id u data :
  users w !! id = Some u ->
  userRepository_update id data w =
    Resolved tt {| users := <[id := apply_update data u]> (users w); logs := logs w |}.
Proof. unfold userRepository_update. by intros ->. Qed.

(** The object that [findById] of the program returns has no
    [refreshTokenHash], and its [status], [id] and [role] are the ones of the
    record; the same holds for [id], [role] and [status] when the [select]
    has more columns. *)
Lemma selected_refreshTokenHash user :
  get (select_columns findById_select user) "refreshTokenHash" = JUndefined.
Proof. reflexivity. Qed.

Lemma selected_status extra user :
  get (select_columns (findById_select ++ extra) user) "status" =
    JStr (Status_string (status user.2)).
Proof. reflexivity. Qed.

Lemma selected_id extra user :
  get (select_columns (findById_select ++ extra) user) "id" = JStr user.1.
Proof. reflexivity. Qed.

Lemma selected_role extra user :
  get (select_columns (findById_select ++ extra) user) "role" =
    JStr (Role_string (role user.2)).
Proof. reflexivity. Qed.

(** What a property of the selected object reads as. *)
Lemma get_select_columns columns user key :
  get (select_columns columns user) key =
    if bool_decide (key ∈ columns) then user_prop user key else JUndefined.
Proof.
  induction columns as [|column columns IH]; [done|].
  cbn [select_columns map get]. fold (select_columns columns user).
  destruct (String.eqb_spec column key) as [->|Hne].
  - by rewrite bool_decide_eq_true_2 by left.
  - rewrite IH. apply (f_equal (fun b : bool => if b then _ else _)).
    apply bool_decide_ext. rewrite elem_of_cons.
    split; [auto|]. by intros [->|H].
Qed.

Lemma selected_refreshTokenHash_extra extra user :
  get (select_columns (findById_select ++ extra) user) "refreshTokenHash" =
    if bool_decide ("refreshTokenHash" ∈ extra) then
      match refreshTokenHash user.2 with Some h => JStr h | None => JNull end
    else JUndefined.
Proof.
  rewrite get_select_columns.
  assert ("refreshTokenHash" ∉ findById_select) as Hnot.
  { unfold findById_select. rewrite !elem_of_cons, elem_of_nil.
    intros H. repeat destruct H as [H|H]; done. }
  rewrite (bool_decide_ext _ ("refreshTokenHash" ∈ extra)); [done|].
  rewrite elem_of_app. split; [by intros [H|H]|auto].
Qed.

(** With no further column the repository is the one of the program. *)
Lemma repository_selecting_nil : repository_selecting [] = makeUserRepository.
Proof. reflexivity. Qed.

(** ** The codec *)

(** The refresh token that [login] signs verifies under the refresh key for
    as long as the clock, in seconds, is before [iat + expiresIn]. *)
Lemma jwt_verify_refresh_token id secret expiresIn now now' :
  clockTimestamp now' < clockTimestamp now + expiresIn ->
  jwt_verify (jwt_sign [("userId", JStr id)] secret expiresIn now) secret now' =
    inr (claims (jwt_sign [("userId", JStr id)] secret expiresIn now)).
Proof.
  intros Hlt. unfold jwt_verify, jwt_sign, claims.
  rewrite String.eqb_refl. cbn.
  by rewrite (proj2 (Z.leb_gt _ _) Hlt).
Qed.

(** So does the access token that [login] signs. *)
Lemma jwt_verify_login_access_token id r uname secret expiresIn now now' :
  clockTimestamp now' < clockTimestamp now + expiresIn ->
  jwt_verify (jwt_sign [("userId", JStr id); ("role", JStr r); ("username", JStr uname)]
                       secret expiresIn now) secret now' =
    inr (claims (jwt_sign [("userId", JStr id); ("role", JStr r); ("username", JStr uname)]
                          secret expiresIn now)).
Proof.
  intros Hlt. unfold jwt_verify, jwt_sign, claims.
  rewrite String.eqb_refl. cbn.
  by rewrite (proj2 (Z.leb_gt _ _) Hlt).
Qed.

Lemma jwt_verify_claims token secret now decoded :
  jwt_verify token secret now = inr decoded -> decoded = claims token.
Proof.
  unfold jwt_verify, claims. destruct token as [payload key|raw]; [|done].
  intros H. repeat case_match; congruence.
Qed.

(** ** The auth service *)

Section AuthServiceProperties.

Variable bcrypt_compare : string -> string -> bool.
Variable sha256_hex : Token -> string.
Variable env : Env.

Local Abbreviation login :=
  (AuthService.login makeUserRepository bcrypt_compare sha256_hex env).
Local Abbreviation refresh := (AuthService.refreshToken makeUserRepository sha256_hex env).
Local Abbreviation logout := (AuthService.logout makeUserRepository).

(** What a successful [login] returns and writes. The payload that is signed
    names [refreshVersion], which reads as undefined and is left out. *)
Lemma login_success uname password now w id u :
  find_by_username (users w) uname = Some (id, u) ->
  status u = ACTIVE ->
  bcrypt_compare password (passwordHash u) = true ->
  login uname password now w =
    Resolved
      {| accessToken :=
           jwt_sign [("userId", JStr id);
                     ("role", JStr (Role_string (role u)));
                     ("username", JStr (username u))]
                    (JWT_SECRET env) (JWT_EXPIRES_IN env) now;
         refreshToken :=
           jwt_sign [("userId", JStr id)]
                    (JWT_REFRESH_SECRET env) (JWT_REFRESH_EXPIRES_IN env) now;
         user := [("id", JStr id);
                  ("email", JStr (email u));
                  ("username", JStr (username u));
                  ("name", JStr (name u));
                  ("role", JStr (Role_string (role u)))] |}
      {| users :=
           <[id := apply_update
                     {| data_refreshTokenHash :=
                          Some (Some (sha256_hex
                                        (jwt_sign [("userId", JStr id)]
                                                  (JWT_REFRESH_SECRET env)
                                                  (JWT_REFRESH_EXPIRES_IN env) now)));
                        data_lastLoginAt := Some now |} u]> (users w);
         logs := logs w ++ [([("userId", JStr id)], "User logged in")] |}.
Proof.
  intros Hfind Hstatus Hpw.
  destruct (find_by_username_Some _ _ _ _ Hfind) as [Hlook _].
  unfold AuthService.login, await. cbn [findByUsernameForAuth update makeUserRepository].
  unfold userRepository_findByUsernameForAuth.
  rewrite Hfind. cbn [fst snd]. rewrite Hstatus, Hpw. cbn.
  rewrite bool_decide_eq_false_2 by done.
  erewrite userRepository_update_found by exact Hlook.
  reflexivity.
Qed.

(** What [logout] writes for an account that exists. *)
Lemma logout_success userId w u :
  users w !! userId = Some u ->
  logout userId w =
    Resolved tt
      {| users :=
           <[userId := apply_update
                         {| data_refreshTokenHash := Some None;
                            data_lastLoginAt := None |} u]> (users w);
         logs := logs w ++ [([("userId", JStr userId)], "User logged out")] |}.
Proof.
  intros Hlook. unfold AuthService.logout, await. cbn [update makeUserRepository].
  erewrite userRepository_update_found by exact Hlook.
  reflexivity.
Qed.

(** A [login] that resolves found an active account and a valid password. *)
Lemma login_resolved_inv uname password now w r w1 :
  login uname password now w = Resolved r w1 ->
  exists id u,
    find_by_username (users w) uname = Some (id, u) /\
    status u = ACTIVE /\
    bcrypt_compare password (passwordHash u) = true.
Proof.
  unfold AuthService.login, await, throw.
  cbn [findByUsernameForAuth update makeUserRepository].
  unfold userRepository_findByUsernameForAuth.
  destruct (find_by_username (users w) uname) as [[id u]|] eqn:Hfind; [|done].
  cbn [fst snd]. case_bool_decide; [done|].
  destruct (bcrypt_compare password (passwordHash u)) eqn:Hpw; [|done].
  destruct (status u) eqn:Hstatus; [|done..].
  intros _. by exists id, u.
Qed.

(** [login] and [logout] do not call [findById]: they are the same for
    every [select] of it. *)
Lemma login_selecting extra :
  AuthService.login (repository_selecting extra) bcrypt_compare sha256_hex env = login.
Proof. reflexivity. Qed.

Lemma logout_selecting extra : AuthService.logout (repository_selecting extra) = logout.
Proof. reflexivity. Qed.

(** [refreshToken] in full, for every [select] of [findById]: it resolves
    exactly when the token verifies and names an ACTIVE account, the
    [select] has [refreshTokenHash], and the hash stored is the digest of
    the token; it leaves the world as it was. *)
Lemma refresh_selecting extra token now w :
  AuthService.refreshToken (repository_selecting extra) sha256_hex env token now w =
    match jwt_verify token (JWT_REFRESH_SECRET env) now with
    | inl _ => Rejected InvalidRefreshToken w
    | inr _ =>
        match get (claims token) "userId" with
        | JStr id =>
            match users w !! id with
            | Some u =>
                if bool_decide (status u = ACTIVE) &&
                   bool_decide ("refreshTokenHash" ∈ extra) &&
                   bool_decide (refreshTokenHash u = Some (sha256_hex token))
                then
                  Resolved
                    (jwt_sign [("userId", JStr id); ("role", JStr (Role_string (role u)))]
                              (JWT_SECRET env) (JWT_EXPIRES_IN env) now) w
                else Rejected InvalidRefreshToken w
            | None => Rejected InvalidRefreshToken w
            end
        | _ => Rejected (PrismaClientError "Invalid `prisma.user.findUnique()` invocation") w
        end
    end.
Proof.
  unfold AuthService.refreshToken, await, throw, resolve.
  cbn [findById repository_selecting].
  destruct (jwt_verify token (JWT_REFRESH_SECRET env) now) as [e|decoded] eqn:Hverify;
    [done|].
  apply jwt_verify_claims in Hverify as ->.
  destruct (get (claims token) "userId") as [| |n|id]; [done..|].
  destruct (users w !! id) as [u|]; [|done].
  cbn [fmap option_fmap option_map].
  rewrite selected_status, selected_id, selected_role, selected_refreshTokenHash_extra.
  cbn [fst snd].
  destruct (status u); cbn [Status_string];
    [rewrite (bool_decide_eq_true_2 (JStr "ACTIVE" = JStr "ACTIVE")),
       (bool_decide_eq_true_2 (ACTIVE = ACTIVE)) by done
    |rewrite (bool_decide_eq_false_2 (JStr _ = JStr "ACTIVE")),
       (bool_decide_eq_false_2 (_ = ACTIVE)) by done; done..].
  cbn [negb andb].
  destruct (bool_decide ("refreshTokenHash" ∈ extra)); cbn [andb];
    [|by rewrite bool_decide_eq_false_2].
  destruct (refreshTokenHash u) as [h|]; [|by rewrite !bool_decide_eq_false_2].
  destruct (decide (h = sha256_hex token)) as [->|Hne].
  - by rewrite !bool_decide_eq_true_2.
  - rewrite !bool_decide_eq_false_2; [done|congruence..].
Qed.

(** With the repository of the program [refreshToken] rejects whatever it is
    given, and leaves the world as it was: the object that [findById]
    returns has no [refreshTokenHash], so the comparison with the digest of
    the token never holds. *)
Lemma refresh_rejects token now w :
  (refresh token now w = Rejected InvalidRefreshToken w /\
   ((exists e, jwt_verify token (JWT_REFRESH_SECRET env) now = inl e) \/
    exists id, get (claims token) "userId" = JStr id)) \/
  (exists e, refresh token now w = Rejected (PrismaClientError e) w /\
             forall id, get (claims token) "userId" <> JStr id).
Proof.
  rewrite <- repository_selecting_nil, refresh_selecting.
  destruct (jwt_verify token (JWT_REFRESH_SECRET env) now) as [e|decoded] eqn:Hverify;
    [left; eauto|].
  destruct (get (claims token) "userId") as [| |n|id] eqn:Hid;
    [right; eexists; split; [reflexivity|done]..|].
  left. split; [|eauto].
  destruct (users w !! id) as [u|]; [|done].
  rewrite (bool_decide_eq_false_2 ("refreshTokenHash" ∈ [])) by apply not_elem_of_nil.
  by rewrite andb_false_r.
Qed.

Lemma refresh_rejects_known token now w id :
  get (claims token) "userId" = JStr id ->
  refresh token now w = Rejected InvalidRefreshToken w.
Proof.
  intros Hid. destruct (refresh_rejects token now w) as [[H _]|(e & _ & H)]; [done|].
  by destruct (H id).
Qed.

(** A refresh for an account without a stored hash is rejected, whatever
    the [select] of [findById] is. *)
Lemma refresh_rejects_null_hash extra token now w id u :
  get (claims token) "userId" = JStr id ->
  users w !! id = Some u ->
  refreshTokenHash u = None ->
  AuthService.refreshToken (repository_selecting extra) sha256_hex env token now w =
    Rejected InvalidRefreshToken w.
Proof.
  intros Hid Hlook Hnull. rewrite refresh_selecting, Hid, Hlook, Hnull.
  destruct (jwt_verify token (JWT_REFRESH_SECRET env) now); [done|].
  rewrite (bool_decide_eq_false_2 (None = Some _)) by done.
  by rewrite andb_false_r.
Qed.

(** C3. A login to an ACTIVE account with a password that verifies against
    the stored hash succeeds, but the access token it returns carries no
    epoch: [login] reads [user.refreshVersion], the record has its epoch
    under [refreshTokenVersion], and a property that reads as undefined is
    left out of the payload. The claims are the user id, the role, the user
    name, [iat] and [exp]. *)
Theorem login_access_token_lacks_epoch uname password now w id u :
  find_by_username (users w) uname = Some (id, u) ->
  status u = ACTIVE ->
  bcrypt_compare password (passwordHash u) = true ->
  exists r w1,
    login uname password now w = Resolved r w1 /\
    claims (accessToken r) =
      [("userId", JStr id);
       ("role", JStr (Role_string (role u)));
       ("username", JStr (username u));
       ("iat", JNum (clockTimestamp now));
       ("exp", JNum (clockTimestamp now + JWT_EXPIRES_IN env))] /\
    get (claims (accessToken r)) "refreshVersion" = JUndefined /\
    get (claims (accessToken r)) "refreshVersion" <> JNum (refreshTokenVersion u).
Proof.
  intros Hfind Hstatus Hpw.
  rewrite (login_success _ _ _ _ _ _ Hfind Hstatus Hpw).
  eexists _, _. split; [reflexivity|]. by repeat split.
Qed.

(** C7. When no account has the user name, or the account that has it is
    DELETED, login is rejected with InvalidCredentials; both cases end in
    the same error, whatever the password, and leave the world as it
    was. *)
Theorem login_absent_or_deleted_invalid_credentials uname password now w :
  (find_by_username (users w) uname = None \/
   exists id u, find_by_username (users w) uname = Some (id, u) /\ status u = DELETED) ->
  login uname password now w = Rejected InvalidCredentials w.
Proof.
  unfold AuthService.login, await, throw.
  cbn [findByUsernameForAuth makeUserRepository].
  unfold userRepository_findByUsernameForAuth.
  intros [->|(id & u & -> & Hstatus)]; [done|].
  cbn [fst snd]. by rewrite bool_decide_eq_true_2.
Qed.

(** C8. For an account that is neither ACTIVE nor DELETED, login with the
    right password is rejected with AccountNotActive and login with a wrong
    password with InvalidCredentials: the status is looked at after the
    password. *)
Theorem login_inactive_after_password_check uname password now w id u :
  find_by_username (users w) uname = Some (id, u) ->
  status u <> ACTIVE ->
  status u <> DELETED ->
  login uname password now w =
    Rejected (if bcrypt_compare password (passwordHash u)
              then AccountNotActive else InvalidCredentials) w.
Proof.
  intros Hfind Hactive Hdeleted.
  unfold AuthService.login, await, throw.
  cbn [findByUsernameForAuth makeUserRepository].
  unfold userRepository_findByUsernameForAuth.
  rewrite Hfind. cbn [fst snd]. rewrite bool_decide_eq_false_2 by done.
  destruct (bcrypt_compare password (passwordHash u)); [|done].
  by destruct (status u).
Qed.

(** C6. For an account that exists, logout succeeds twice in a row; the
    stored refreshTokenHash is null after the first call and after the
    second, the second call changes nothing in the user table, and the
    table after a logout is the same whatever hash was stored before. *)
Theorem logout_idempotent userId w u :
  users w !! userId = Some u ->
  exists w1 w2,
    AuthService.logout makeUserRepository userId w = Resolved tt w1 /\
    AuthService.logout makeUserRepository userId w1 = Resolved tt w2 /\
    refreshTokenHash <$> users w1 !! userId = Some None /\
    refreshTokenHash <$> users w2 !! userId = Some None /\
    users w2 = users w1 /\
    forall h,
      exists wh,
        AuthService.logout makeUserRepository userId
          {| users := <[userId := apply_update
                                    {| data_refreshTokenHash := Some h;
                                       data_lastLoginAt := None |} u]> (users w);
             logs := logs w |} = Resolved tt wh /\
        users wh = users w1.
Proof.
  intros Hlook.
  rewrite (logout_success _ _ _ Hlook).
  eexists _, _. split; [reflexivity|].
  split; [apply logout_success; cbn; apply lookup_insert_eq|].
  cbn [users]. rewrite insert_insert_eq, !lookup_insert_eq.
  do 3 (split; [done|]).
  intros h. eexists. split; [apply logout_success; cbn; apply lookup_insert_eq|].
  cbn [users]. by rewrite insert_insert_eq.
Qed.

(** C5. After a successful login and a logout of the same account, a
    refresh that presents the refresh token of that login is rejected with
    InvalidRefreshToken, at whatever time it is tried and whatever columns
    [findById] of the repository selects: where it selects
    [refreshTokenHash], the hash it returns is null. *)
Theorem refresh_after_logout_rejected extra uname password now now' w id u :
  find_by_username (users w) uname = Some (id, u) ->
  status u = ACTIVE ->
  bcrypt_compare password (passwordHash u) = true ->
  exists r w1 w2,
    AuthService.login (repository_selecting extra) bcrypt_compare sha256_hex env
      uname password now w = Resolved r w1 /\
    AuthService.logout (repository_selecting extra) id w1 = Resolved tt w2 /\
    refreshTokenHash <$> users w2 !! id = Some None /\
    AuthService.refreshToken (repository_selecting extra) sha256_hex env
      (refreshToken r) now' w2 = Rejected InvalidRefreshToken w2.
Proof.
  intros Hfind Hstatus Hpw.
  rewrite login_selecting, logout_selecting.
  rewrite (login_success _ _ _ _ _ _ Hfind Hstatus Hpw).
  eexists _, _, _. split; [reflexivity|].
  split; [apply logout_success; cbn; apply lookup_insert_eq|].
  cbn [users refreshToken]. rewrite insert_insert_eq.
  split; [by rewrite lookup_insert_eq|].
  eapply refresh_rejects_null_hash; [reflexivity|cbn; apply lookup_insert_eq|done].
Qed.

(** C4. After a successful login the hash stored for the account is the
    digest of the refresh token returned, and that token verifies under the
    refresh key while it has not expired; yet a refresh with it is rejected
    with InvalidRefreshToken: [findById] of the repository does not select
    [refreshTokenHash], so [refreshToken] compares the digest it computes
    again with undefined. *)
Theorem login_then_refresh_rejected uname password now now' w id u :
  find_by_username (users w) uname = Some (id, u) ->
  status u = ACTIVE ->
  bcrypt_compare password (passwordHash u) = true ->
  clockTimestamp now' < clockTimestamp now + JWT_REFRESH_EXPIRES_IN env ->
  exists r w1,
    login uname password now w = Resolved r w1 /\
    refreshTokenHash <$> users w1 !! id = Some (Some (sha256_hex (refreshToken r))) /\
    status <$> users w1 !! id = Some ACTIVE /\
    jwt_verify (refreshToken r) (JWT_REFRESH_SECRET env) now' =
      inr (claims (refreshToken r)) /\
    get (claims (refreshToken r)) "userId" = JStr id /\
    refresh (refreshToken r) now' w1 = Rejected InvalidRefreshToken w1.
Proof.
  intros Hfind Hstatus Hpw Hlive.
  rewrite (login_success _ _ _ _ _ _ Hfind Hstatus Hpw).
  eexists _, _. split; [reflexivity|].
  cbn [users refreshToken]. rewrite lookup_insert_eq.
  split; [done|]. split; [cbn; by rewrite Hstatus|].
  split; [by apply jwt_verify_refresh_token|]. split; [reflexivity|].
  by eapply refresh_rejects_known.
Qed.

(** X25. Two logins to one account within the same second of the clock
    return the same refresh token: the payload is the user id, [iat] and
    [exp], and nothing else tells the two apart. *)
Theorem same_second_same_refresh_token uname password now1 now2 w r1 w1 r2 w2 :
  login uname password now1 w = Resolved r1 w1 ->
  login uname password now2 w1 = Resolved r2 w2 ->
  unique_usernames (users w) ->
  clockTimestamp now1 = clockTimestamp now2 ->
  refreshToken r1 = refreshToken r2.
Proof.
  intros H1 H2 Huniq Hclock.
  destruct (login_resolved_inv _ _ _ _ _ _ H1) as (id & u & Hfind & Hstatus & Hpw).
  destruct (find_by_username_Some _ _ _ _ Hfind) as [Hlook Hname].
  rewrite (login_success _ _ _ _ _ _ Hfind Hstatus Hpw) in H1.
  injection H1 as <- <-.
  destruct (login_resolved_inv _ _ _ _ _ _ H2) as (id2 & u2 & Hfind2 & Hstatus2 & Hpw2).
  rewrite (login_success _ _ _ _ _ _ Hfind2 Hstatus2 Hpw2) in H2.
  injection H2 as <- <-.
  cbn [users] in Hfind2.
  erewrite find_by_username_unique in Hfind2;
    [|by apply unique_usernames_update|apply lookup_insert_eq|exact Hname].
  injection Hfind2 as <- _.
  cbn [refreshToken]. unfold jwt_sign. by rewrite Hclock.
Qed.

(** C9. After two successful logins to one account the hash stored is the
    digest of the refresh token of the second login, and that token verifies
    while it has not expired; yet a refresh with it is rejected with
    InvalidRefreshToken, as a refresh with the token of the first login is:
    [findById] of the repository does not select [refreshTokenHash]. *)
Theorem second_login_refresh_rejected uname password now1 now2 now3 w id u :
  unique_usernames (users w) ->
  find_by_username (users w) uname = Some (id, u) ->
  status u = ACTIVE ->
  bcrypt_compare password (passwordHash u) = true ->
  clockTimestamp now3 < clockTimestamp now2 + JWT_REFRESH_EXPIRES_IN env ->
  exists r1 w1 r2 w2,
    login uname password now1 w = Resolved r1 w1 /\
    login uname password now2 w1 = Resolved r2 w2 /\
    refreshTokenHash <$> users w2 !! id = Some (Some (sha256_hex (refreshToken r2))) /\
    jwt_verify (refreshToken r2) (JWT_REFRESH_SECRET env) now3 =
      inr (claims (refreshToken r2)) /\
    refresh (refreshToken r2) now3 w2 = Rejected InvalidRefreshToken w2 /\
    refresh (refreshToken r1) now3 w2 = Rejected InvalidRefreshToken w2.
Proof.
  intros Huniq Hfind Hstatus Hpw Hlive.
  destruct (find_by_username_Some _ _ _ _ Hfind) as [Hlook Hname].
  eexists _, _, _, _.
  split; [by apply login_success|].
  split.
  { eapply login_success;
      [cbn [users]; apply find_by_username_unique;
         [by apply unique_usernames_update|apply lookup_insert_eq|exact Hname]
      |exact Hstatus|exact Hpw]. }
  cbn [users refreshToken]. rewrite insert_insert_eq, lookup_insert_eq.
  split; [done|]. split; [by apply jwt_verify_refresh_token|].
  split; by eapply refresh_rejects_known.
Qed.

(** C2. Whatever columns [findById] of the repository selects besides its
    own, the access token that a successful refresh returns carries the id
    and the current role of the account the refresh token names, and
    besides them only [iat] and [exp]: there is no [refreshVersion] claim
    in it. *)
Theorem refresh_access_token_claims extra token now w t w1 :
  AuthService.refreshToken (repository_selecting extra) sha256_hex env token now w =
    Resolved t w1 ->
  exists id u,
    users w !! id = Some u /\
    claims t = [("userId", JStr id);
                ("role", JStr (Role_string (role u)));
                ("iat", JNum (clockTimestamp now));
                ("exp", JNum (clockTimestamp now + JWT_EXPIRES_IN env))] /\
    get (claims t) "role" = JStr (Role_string (role u)) /\
    get (claims t) "refreshVersion" = JUndefined.
Proof.
  unfold AuthService.refreshToken, await, throw, resolve.
  cbn [findById repository_selecting].
  destruct (jwt_verify token (JWT_REFRESH_SECRET env) now) as [e|decoded]; [done|].
  destruct (get decoded "userId") as [| |n|id]; [done..|].
  destruct (users w !! id) as [u|] eqn:Hlook; [|done].
  cbn [fmap option_fmap option_map].
  rewrite selected_status, selected_id, selected_role.
  destruct (negb (bool_decide _)); [done|].
  destruct (negb (bool_decide _)); [done|].
  intros [= <- <-]. by exists id, u.
Qed.

End AuthServiceProperties.

(** ** The auth middleware *)

Section AuthMiddlewareProperties.

Variable StringToNumber : string -> option Z.
Variable findById : JsObject -> JsError + option UserObject.

Local Abbreviation authMiddleware secret :=
  (AuthMiddleware.authMiddleware StringToNumber secret findById).

(** A record of the user table has no property called [refresh_version]. *)
Lemma user_prop_refresh_version user : user_prop user "refresh_version" = JUndefined.
Proof. reflexivity. Qed.

(** With a token that verifies and a record that the repository returns,
    the middleware compares two values of which the record's is
    [undefined]: a token without a [refresh_version] claim goes through. *)
Lemma authMiddleware_without_refresh_version secret token now decoded user :
  jwt_verify token secret now = inr decoded ->
  get decoded "refresh_version" = JUndefined ->
  findById [("id", get decoded "id")] = inr (Some user) ->
  authMiddleware secret (mkRequest (Some (Bearer token))) now = Next decoded.
Proof.
  intros Hverify Hclaim Hfound.
  unfold AuthMiddleware.authMiddleware, AuthMiddleware.try_body.
  cbn [headers_authorization mbind option_bind bearer_token].
  rewrite Hverify, Hfound, Hclaim.
  reflexivity.
Qed.

(** What the middleware does with an unexpired access token of a login is
    decided by the answer of the repository to a lookup without an id, and by
    nothing else: the token carries no epoch, and the one in the record plays
    no part. *)
Lemma authMiddleware_login_token_outcome
    bcrypt_compare sha256_hex env uname password now now' w r w1 :
  AuthService.login makeUserRepository bcrypt_compare sha256_hex env uname password now w =
    Resolved r w1 ->
  clockTimestamp now' < clockTimestamp now + JWT_EXPIRES_IN env ->
  authMiddleware (JWT_SECRET env) (mkRequest (Some (Bearer (accessToken r)))) now' =
    match findById [("id", JUndefined)] with
    | inr (Some _) => Next (claims (accessToken r))
    | inr None =>
        NextError (TypeError "Cannot read properties of null (reading 'refresh_version')")
    | inl error => AuthMiddleware.catch_block error
    end.
Proof.
  intros Hlogin Hlive.
  destruct (login_resolved_inv _ _ _ _ _ _ _ _ _ Hlogin) as (id & u & Hfind & Hstatus & Hpw).
  rewrite (login_success _ _ _ _ _ _ _ _ _ Hfind Hstatus Hpw) in Hlogin.
  injection Hlogin as <- <-. cbn [accessToken].
  unfold AuthMiddleware.authMiddleware, AuthMiddleware.try_body.
  cbn [headers_authorization mbind option_bind bearer_token].
  rewrite jwt_verify_login_access_token by done.
  change (get (claims _) "id") with JUndefined.
  destruct (findById [("id", JUndefined)]) as [error|[user|]]; reflexivity.
Qed.

(** The first three states of the middleware: no bearer token, a token whose
    signature or form is wrong, a token that has expired. *)
Lemma authMiddleware_missing_token secret req now :
  (headers_authorization req = None \/
   exists value,
     headers_authorization req = Some (OtherHeader value) /\
     String.prefix "Bearer " value = false) ->
  authMiddleware secret req now = NextError MissingToken.
Proof.
  unfold AuthMiddleware.authMiddleware, AuthMiddleware.try_body.
  intros [->|(value & -> & Hprefix)]; [done|].
  cbn [mbind option_bind bearer_token]. by rewrite Hprefix.
Qed.

Lemma authMiddleware_invalid_token secret token now message :
  jwt_verify token secret now = inl (JsonWebTokenError message) ->
  authMiddleware secret (mkRequest (Some (Bearer token))) now = NextError InvalidToken.
Proof.
  intros Hverify. unfold AuthMiddleware.authMiddleware, AuthMiddleware.try_body.
  cbn [headers_authorization mbind option_bind bearer_token]. by rewrite Hverify.
Qed.

Lemma authMiddleware_expired_token secret token now message :
  jwt_verify token secret now = inl (TokenExpiredError message) ->
  authMiddleware secret (mkRequest (Some (Bearer token))) now = NextError TokenExpired.
Proof.
  intros Hverify. unfold AuthMiddleware.authMiddleware, AuthMiddleware.try_body.
  cbn [headers_authorization mbind option_bind bearer_token]. by rewrite Hverify.
Qed.

(** C1. An access token that login has issued and that has not expired is
    let through by the middleware when the repository returns a record
    whose [refreshTokenVersion] differs from the one the account had at the
    login: the token has no [refresh_version] claim and the record no such
    property, and the request goes on with the claims of the token as
    [req.user]. *)
Theorem authMiddleware_accepts_superseded_login_token
    bcrypt_compare sha256_hex env uname password now now' w id u user :
  find_by_username (users w) uname = Some (id, u) ->
  status u = ACTIVE ->
  bcrypt_compare password (passwordHash u) = true ->
  clockTimestamp now' < clockTimestamp now + JWT_EXPIRES_IN env ->
  findById [("id", JUndefined)] = inr (Some user) ->
  refreshTokenVersion user.2 <> refreshTokenVersion u ->
  exists r w1,
    AuthService.login makeUserRepository bcrypt_compare sha256_hex env uname password now w =
      Resolved r w1 /\
    get (claims (accessToken r)) "refresh_version" = JUndefined /\
    user_prop user "refresh_version" = JUndefined /\
    authMiddleware (JWT_SECRET env) (mkRequest (Some (Bearer (accessToken r)))) now' =
      Next (claims (accessToken r)).
Proof.
  intros Hfind Hstatus Hpw Hlive Hfound _.
  rewrite (login_success _ _ _ _ _ _ _ _ _ Hfind Hstatus Hpw).
  eexists _, _. split; [reflexivity|]. split; [reflexivity|]. split; [reflexivity|].
  cbn [accessToken].
  apply authMiddleware_without_refresh_version with (user := user).
  - by apply jwt_verify_login_access_token.
  - reflexivity.
  - exact Hfound.
Qed.

(** C10. When the token verifies and the repository resolves to null, the
    middleware neither lets the request through nor answers with one of
    its authentication errors: reading [refresh_version] of null throws a
    TypeError, which is passed to [next] as it is. *)
Theorem authMiddleware_null_record_type_error secret token now decoded :
  jwt_verify token secret now = inr decoded ->
  findById [("id", get decoded "id")] = inr None ->
  exists e,
    authMiddleware secret (mkRequest (Some (Bearer token))) now = NextError e /\
    error_name e = "TypeError" /\
    e <> MissingToken /\ e <> InvalidToken /\ e <> TokenExpired /\
    e <> SessionSuperseded.
Proof.
  intros Hverify Hnull.
  exists (TypeError "Cannot read properties of null (reading 'refresh_version')").
  unfold AuthMiddleware.authMiddleware, AuthMiddleware.try_body.
  cbn [headers_authorization mbind option_bind bearer_token]. rewrite Hverify, Hnull.
  repeat split; done.
Qed.

End AuthMiddlewareProperties.

(** ** The properties at the sample data *)

Lemma login_access_token_lacks_epoch_witness :
  exists r w1,
    AuthService.login makeUserRepository stub_compare stub_digest test_env
      "alice" "correct" t0 world0 = Resolved r w1 /\
    claims (accessToken r) =
      [("userId", JStr "u1"); ("role", JStr "USER"); ("username", JStr "alice");
       ("iat", JNum (clockTimestamp t0)); ("exp", JNum (clockTimestamp t0 + 900))] /\
    get (claims (accessToken r)) "refreshVersion" = JUndefined /\
    get (claims (accessToken r)) "refreshVersion" <> JNum (refreshTokenVersion alice).
Proof.
  apply (login_access_token_lacks_epoch stub_compare stub_digest test_env
           "alice" "correct" t0 world0 "u1" alice); reflexivity.
Defined.

Lemma login_absent_or_deleted_invalid_credentials_witness :
  AuthService.login makeUserRepository stub_compare stub_digest test_env
    "bob" "anything" t0 world0 = Rejected InvalidCredentials world0.
Proof.
  apply (login_absent_or_deleted_invalid_credentials stub_compare stub_digest test_env
           "bob" "anything" t0 world0).
  left. reflexivity.
Defined.

Lemma login_inactive_after_password_check_witness :
  AuthService.login makeUserRepository stub_compare stub_digest test_env
    "carol" "secret" t0 world_suspended = Rejected AccountNotActive world_suspended /\
  AuthService.login makeUserRepository stub_compare stub_digest test_env
    "carol" "guess" t0 world_suspended = Rejected InvalidCredentials world_suspended.
Proof.
  split.
  - apply (login_inactive_after_password_check stub_compare stub_digest test_env
             "carol" "secret" t0 world_suspended "u2" carol); [reflexivity|done|done].
  - apply (login_inactive_after_password_check stub_compare stub_digest test_env
             "carol" "guess" t0 world_suspended "u2" carol); [reflexivity|done|done].
Defined.

Lemma logout_idempotent_witness :
  exists w1 w2,
    AuthService.logout makeUserRepository "u1" world1 = Resolved tt w1 /\
    AuthService.logout makeUserRepository "u1" w1 = Resolved tt w2 /\
    refreshTokenHash <$> users w1 !! "u1" = Some None /\
    refreshTokenHash <$> users w2 !! "u1" = Some None /\
    users w2 = users w1.
Proof.
  destruct (logout_idempotent "u1" world1
              (apply_update
                 {| data_refreshTokenHash := Some (Some (stub_digest alice_refresh_token));
                    data_lastLoginAt := Some t0 |} alice))
    as (w1 & w2 & H1 & H2 & Hnull1 & Hnull2 & Hsame & _); [reflexivity|].
  exists w1, w2. auto.
Defined.

Lemma refresh_after_logout_rejected_witness :
  exists r w1 w2,
    AuthService.login whole_record_repository stub_compare stub_digest test_env
      "alice" "correct" t0 world0 = Resolved r w1 /\
    AuthService.logout whole_record_repository "u1" w1 = Resolved tt w2 /\
    refreshTokenHash <$> users w2 !! "u1" = Some None /\
    AuthService.refreshToken whole_record_repository stub_digest test_env
      (refreshToken r) (t0 + 1000) w2 = Rejected InvalidRefreshToken w2.
Proof.
  apply (refresh_after_logout_rejected stub_compare stub_digest test_env
           ["passwordHash"; "refreshTokenHash"; "refreshTokenVersion"]
           "alice" "correct" t0 (t0 + 1000) world0 "u1" alice); reflexivity.
Defined.

Lemma login_then_refresh_rejected_witness :
  exists r w1,
    AuthService.login makeUserRepository stub_compare stub_digest test_env
      "alice" "correct" t0 world0 = Resolved r w1 /\
    refreshTokenHash <$> users w1 !! "u1" = Some (Some (stub_digest (refreshToken r))) /\
    status <$> users w1 !! "u1" = Some ACTIVE /\
    jwt_verify (refreshToken r) "refresh-secret" (t0 + 1000) =
      inr (claims (refreshToken r)) /\
    get (claims (refreshToken r)) "userId" = JStr "u1" /\
    AuthService.refreshToken makeUserRepository stub_digest test_env
      (refreshToken r) (t0 + 1000) w1 = Rejected InvalidRefreshToken w1.
Proof.
  apply (login_then_refresh_rejected stub_compare stub_digest test_env
           "alice" "correct" t0 (t0 + 1000) world0 "u1" alice);
    [reflexivity|reflexivity|reflexivity|vm_compute; reflexivity].
Defined.

Lemma second_login_refresh_rejected_witness :
  exists r1 w1 r2 w2,
    AuthService.login makeUserRepository stub_compare stub_digest test_env
      "alice" "correct" t0 world0 = Resolved r1 w1 /\
    AuthService.login makeUserRepository stub_compare stub_digest test_env
      "alice" "correct" (t0 + 5000) w1 = Resolved r2 w2 /\
    refreshTokenHash <$> users w2 !! "u1" = Some (Some (stub_digest (refreshToken r2))) /\
    jwt_verify (refreshToken r2) "refresh-secret" (t0 + 6000) =
      inr (claims (refreshToken r2)) /\
    AuthService.refreshToken makeUserRepository stub_digest test_env
      (refreshToken r2) (t0 + 6000) w2 = Rejected InvalidRefreshToken w2 /\
    AuthService.refreshToken makeUserRepository stub_digest test_env
      (refreshToken r1) (t0 + 6000) w2 = Rejected InvalidRefreshToken w2.
Proof.
  apply (second_login_refresh_rejected stub_compare stub_digest test_env
           "alice" "correct" t0 (t0 + 5000) (t0 + 6000) world0 "u1" alice).
  - intros i j ui uj Hi Hj _. cbn [users world0] in Hi, Hj.
    apply lookup_singleton_Some in Hi as [<- _].
    apply lookup_singleton_Some in Hj as [<- _]. reflexivity.
  - reflexivity.
  - reflexivity.
  - reflexivity.
  - vm_compute. reflexivity.
Defined.

Lemma refresh_access_token_claims_witness :
  exists id u,
    users world1 !! id = Some u /\
    claims (jwt_sign [("userId", JStr "u1"); ("role", JStr "USER")]
                     "access-secret" 900 (t0 + 1000)) =
      [("userId", JStr id);
       ("role", JStr (Role_string (role u)));
       ("iat", JNum (clockTimestamp (t0 + 1000)));
       ("exp", JNum (clockTimestamp (t0 + 1000) + 900))] /\
    get (claims (jwt_sign [("userId", JStr "u1"); ("role", JStr "USER")]
                          "access-secret" 900 (t0 + 1000))) "role" =
      JStr (Role_string (role u)) /\
    get (claims (jwt_sign [("userId", JStr "u1"); ("role", JStr "USER")]
                          "access-secret" 900 (t0 + 1000))) "refreshVersion" = JUndefined.
Proof.
  apply (refresh_access_token_claims stub_digest test_env
           ["passwordHash"; "refreshTokenHash"; "refreshTokenVersion"]
           alice_refresh_token (t0 + 1000) world1 _ world1).
  vm_compute. reflexivity.
Defined.

Lemma authMiddleware_accepts_superseded_login_token_witness :
  exists r w1,
    AuthService.login makeUserRepository stub_compare stub_digest test_env
      "alice" "correct" t0 world0 = Resolved r w1 /\
    refreshTokenVersion alice = 0 /\
    refreshTokenVersion alice_bumped = 1 /\
    AuthMiddleware.authMiddleware stub_StringToNumber "access-secret" stub_findById
      (mkRequest (Some (Bearer (accessToken r)))) (t0 + 60000) =
      Next (claims (accessToken r)).
Proof.
  destruct (authMiddleware_accepts_superseded_login_token
              stub_StringToNumber stub_findById stub_compare stub_digest test_env
              "alice" "correct" t0 (t0 + 60000) world0 "u1" alice ("u1", alice_bumped))
    as (r & w1 & Hlogin & _ & _ & Hnext);
    [reflexivity|reflexivity|reflexivity|vm_compute; reflexivity|reflexivity|done|].
  exists r, w1. auto.
Defined.

Lemma authMiddleware_null_record_type_error_witness :
  exists e,
    AuthMiddleware.authMiddleware stub_StringToNumber "access-secret" stub_findNobody
      (mkRequest (Some (Bearer alice_access_token))) (t0 + 60000) = NextError e /\
    error_name e = "TypeError" /\
    e <> MissingToken /\ e <> InvalidToken /\ e <> TokenExpired /\ e <> SessionSuperseded.
Proof.
  apply (authMiddleware_null_record_type_error stub_StringToNumber stub_findNobody
           "access-secret" alice_access_token (t0 + 60000) (claims alice_access_token));
    reflexivity.
Defined.

(** ** Further properties of the auth service *)

Section AuthServiceFurther.

Variable bcrypt_compare : string -> string -> bool.
Variable sha256_hex : Token -> string.
Variable env : Env.

Local Abbreviation login :=
  (AuthService.login makeUserRepository bcrypt_compare sha256_hex env).
Local Abbreviation refresh := (AuthService.refreshToken makeUserRepository sha256_hex env).

(** X1. A login that is rejected has written nothing, neither to the user
    table nor to the log, and the error is one of the two that login
    throws. *)
Theorem login_rejected_writes_nothing uname password now w e w1 :
  login uname password now w = Rejected e w1 ->
  w1 = w /\ (e = InvalidCredentials \/ e = AccountNotActive).
Proof.
  unfold AuthService.login, await, throw.
  cbn [findByUsernameForAuth update makeUserRepository].
  unfold userRepository_findByUsernameForAuth.
  destruct (find_by_username (users w) uname) as [[id u]|] eqn:Hfind;
    [|intros [= <- <-]; auto].
  destruct (find_by_username_Some _ _ _ _ Hfind) as [Hlook _].
  cbn [fst snd]. case_bool_decide; [intros [= <- <-]; auto|].
  destruct (bcrypt_compare password (passwordHash u)); cbn [negb];
    [|intros [= <- <-]; auto].
  destruct (negb (String.eqb (Status_string (status u)) "ACTIVE"));
    [intros [= <- <-]; auto|].
  erewrite userRepository_update_found by exact Hlook. done.
Qed.

(** X2. A password that does not verify gives InvalidCredentials whatever
    the status of the account is, so a wrong guess does not tell a suspended
    or deleted account from an active one. *)
Theorem login_wrong_password_invalid_credentials uname password now w id u :
  find_by_username (users w) uname = Some (id, u) ->
  bcrypt_compare password (passwordHash u) = false ->
  login uname password now w = Rejected InvalidCredentials w.
Proof.
  intros Hfind Hpw.
  unfold AuthService.login, await, throw.
  cbn [findByUsernameForAuth update makeUserRepository].
  unfold userRepository_findByUsernameForAuth.
  rewrite Hfind. cbn [fst snd]. rewrite Hpw. by case_bool_decide.
Qed.

(** X3. A login that succeeds writes to the record of that account only,
    and there only the refresh token hash and the time of the last login;
    the log grows by one entry that holds the user id and nothing else. *)
Theorem login_writes_only_session_columns uname password now w r w1 :
  login uname password now w = Resolved r w1 ->
  exists id u u1,
    users w !! id = Some u /\ users w1 !! id = Some u1 /\
    (forall j, j <> id -> users w1 !! j = users w !! j) /\
    email u1 = email u /\ username u1 = username u /\ name u1 = name u /\
    role u1 = role u /\ status u1 = status u /\
    passwordHash u1 = passwordHash u /\
    refreshTokenVersion u1 = refreshTokenVersion u /\
    createdAt u1 = createdAt u /\
    refreshTokenHash u1 = Some (sha256_hex (refreshToken r)) /\
    lastLoginAt u1 = Some now /\
    logs w1 = logs w ++ [([("userId", JStr id)], "User logged in")].
Proof.
  intros Hlogin.
  destruct (login_resolved_inv _ _ _ _ _ _ _ _ _ Hlogin) as (id & u & Hfind & Hstatus & Hpw).
  destruct (find_by_username_Some _ _ _ _ Hfind) as [Hlook _].
  rewrite (login_success _ _ _ _ _ _ _ _ _ Hfind Hstatus Hpw) in Hlogin.
  injection Hlogin as <- <-.
  eexists id, u, _. split; [done|]. cbn [users logs refreshToken].
  split; [apply lookup_insert_eq|].
  split; [intros j Hj; by apply lookup_insert_ne|].
  repeat split.
Qed.

(** X4. [refreshToken] writes nothing: whether it resolves or rejects, the
    user table and the log are as before, so the stored hash is not rotated
    by a refresh. This is so for every [select] of [findById], the one of
    the program among them. *)
Theorem refresh_never_writes extra token now w :
  world_after
    (AuthService.refreshToken (repository_selecting extra) sha256_hex env token now w) = w.
Proof.
  rewrite refresh_selecting.
  destruct (jwt_verify token (JWT_REFRESH_SECRET env) now); [done|].
  destruct (get (claims token) "userId"); [done..|].
  destruct (users w !! _); [|done].
  by destruct (_ && _).
Qed.

(** What [refreshToken] settles with depends on the user table only through
    the record of the account that the token names. *)
Lemma refresh_local extra token now w w' :
  (forall id, get (claims token) "userId" = JStr id -> users w' !! id = users w !! id) ->
  settled (AuthService.refreshToken (repository_selecting extra) sha256_hex env
             token now w') =
    settled (AuthService.refreshToken (repository_selecting extra) sha256_hex env
               token now w).
Proof.
  intros Hsame. rewrite !refresh_selecting.
  destruct (jwt_verify token (JWT_REFRESH_SECRET env) now); [done|].
  destruct (get (claims token) "userId") as [| |n|id] eqn:Hid; [done..|].
  rewrite (Hsame id eq_refl).
  destruct (users w !! id); [|done].
  by destruct (_ && _).
Qed.

(** X5. With the repository that the container registers no refresh
    resolves, whatever the token, the time and the user table are: the
    promise is rejected and the world left as it was. The error is
    InvalidRefreshToken, or the one of the ORM client when the token
    verifies and its [userId] is not a string. *)
Theorem refresh_always_rejected token now w :
  exists e,
    refresh token now w = Rejected e w /\
    (e = InvalidRefreshToken \/
     (exists message, e = PrismaClientError message) /\
     forall id, get (claims token) "userId" <> JStr id).
Proof.
  destruct (refresh_rejects sha256_hex env token now w) as [[H _]|(message & H & Hid)].
  - exists InvalidRefreshToken. auto.
  - exists (PrismaClientError message). eauto.
Qed.


(** X7. A refresh for an account that is not ACTIVE is rejected with
    InvalidRefreshToken, also when the token is the one whose hash is
    stored and [findById] selects that hash. *)
Theorem refresh_rejected_for_inactive_account extra token now w id u :
  get (claims token) "userId" = JStr id ->
  users w !! id = Some u ->
  status u <> ACTIVE ->
  AuthService.refreshToken (repository_selecting extra) sha256_hex env token now w =
    Rejected InvalidRefreshToken w.
Proof.
  intros Hid Hlook Hstatus.
  rewrite refresh_selecting, Hid, Hlook.
  destruct (jwt_verify token (JWT_REFRESH_SECRET env) now); [done|].
  by rewrite (bool_decide_eq_false_2 (status u = ACTIVE)).
Qed.

(** X8. Where the [select] of [findById] has [refreshTokenHash], the refresh
    token of a login is good for exactly its life time: a refresh with it,
    the account left as the login left it, succeeds if and only if the clock
    in whole seconds is before the second of the login plus
    JWT_REFRESH_EXPIRES_IN. *)
Theorem refresh_token_life_time extra uname password now now' w r w1 :
  "refreshTokenHash" ∈ extra ->
  AuthService.login (repository_selecting extra) bcrypt_compare sha256_hex env
    uname password now w = Resolved r w1 ->
  (exists t,
     AuthService.refreshToken (repository_selecting extra) sha256_hex env
       (refreshToken r) now' w1 = Resolved t w1) <->
  clockTimestamp now' < clockTimestamp now + JWT_REFRESH_EXPIRES_IN env.
Proof.
  intros Hselected Hlogin. rewrite login_selecting in Hlogin.
  destruct (login_resolved_inv _ _ _ _ _ _ _ _ _ Hlogin) as (id & u & Hfind & Hstatus & Hpw).
  rewrite (login_success _ _ _ _ _ _ _ _ _ Hfind Hstatus Hpw) in Hlogin.
  injection Hlogin as <- <-. cbn [refreshToken].
  rewrite refresh_selecting.
  change (get (claims (jwt_sign [("userId", JStr id)] _ _ _)) "userId") with (JStr id).
  cbn [users]. rewrite lookup_insert_eq. cbn [status refreshTokenHash apply_update
    data_refreshTokenHash].
  rewrite !bool_decide_eq_true_2 by done. cbn [andb].
  split.
  - intros [t Hrefresh]. revert Hrefresh.
    unfold jwt_verify, jwt_sign. rewrite String.eqb_refl. cbn.
    destruct (Z.leb_spec (clockTimestamp now + JWT_REFRESH_EXPIRES_IN env)
                         (clockTimestamp now')); [done|]. intros _. lia.
  - intros Hlive. rewrite jwt_verify_refresh_token by done. by eexists.
Qed.

(** X9. Sessions are kept per account: a login or a logout of one account
    leaves a refresh for any other account with the outcome it had,
    whatever columns [findById] selects. *)
Theorem other_sessions_untouched extra uname password now a w r w1 w2 token now' :
  (forall b, get (claims token) "userId" = JStr b -> b <> a) ->
  AuthService.login (repository_selecting extra) bcrypt_compare sha256_hex env
    uname password now w = Resolved r w1 ->
  get (user r) "id" = JStr a ->
  AuthService.logout (repository_selecting extra) a w1 = Resolved tt w2 ->
  settled (AuthService.refreshToken (repository_selecting extra) sha256_hex env
             token now' w1) =
    settled (AuthService.refreshToken (repository_selecting extra) sha256_hex env
               token now' w) /\
  settled (AuthService.refreshToken (repository_selecting extra) sha256_hex env
             token now' w2) =
    settled (AuthService.refreshToken (repository_selecting extra) sha256_hex env
               token now' w).
Proof.
  intros Hother Hlogin Hid Hlogout.
  rewrite login_selecting in Hlogin. rewrite logout_selecting in Hlogout.
  destruct (login_resolved_inv _ _ _ _ _ _ _ _ _ Hlogin) as (id & u & Hfind & Hstatus & Hpw).
  rewrite (login_success _ _ _ _ _ _ _ _ _ Hfind Hstatus Hpw) in Hlogin.
  injection Hlogin as <- <-. cbn in Hid. injection Hid as ->.
  erewrite logout_success in Hlogout by (cbn; apply lookup_insert_eq).
  injection Hlogout as <-.
  split; apply refresh_local; intros b Hb; cbn [users].
  - apply lookup_insert_ne. intros ->. by apply (Hother b).
  - rewrite insert_insert_eq. apply lookup_insert_ne. intros ->. by apply (Hother b).
Qed.

End AuthServiceFurther.

(** ** Further properties of the auth middleware *)

Section AuthMiddlewareFurther.

Variable StringToNumber : string -> option Z.
Variable findById : JsObject -> JsError + option UserObject.

Local Abbreviation authMiddleware secret :=
  (AuthMiddleware.authMiddleware StringToNumber secret findById).

Lemma catch_block_never_next error u : AuthMiddleware.catch_block error <> Next u.
Proof.
  unfold AuthMiddleware.catch_block.
  destruct (String.eqb (error_name error) "JsonWebTokenError"); [done|].
  by destruct (String.eqb (error_name error) "TokenExpiredError").
Qed.

(** The [try] ends without an error only past the verification of a bearer
    token and with a record from the repository. *)
Lemma try_body_decoded secret req now decoded :
  AuthMiddleware.try_body StringToNumber secret findById req now = inr decoded ->
  exists token user,
    headers_authorization req = Some (Bearer token) /\
    jwt_verify token secret now = inr decoded /\
    findById [("id", get decoded "id")] = inr (Some user).
Proof.
  unfold AuthMiddleware.try_body.
  destruct (headers_authorization req) as [[token|value]|];
    cbn [mbind option_bind bearer_token]; [| |done].
  - destruct (jwt_verify token secret now) as [e|decoded'] eqn:Hverify; [done|].
    destruct (findById [("id", get decoded' "id")]) as [e|[user|]] eqn:Hfound; [done| |done].
    destruct (negb _); [done|]. intros [= <-]. by exists token, user.
  - by destruct (String.prefix "Bearer " value).
Qed.

(** X10. The middleware lets a request through only if it carries a bearer
    token that verifies under the secret at that time and the repository
    has returned a record; what it puts in [req.user] is the decoded payload
    of that token. *)
Theorem authMiddleware_accepts_only_verified secret req now u :
  authMiddleware secret req now = Next u ->
  exists token user,
    headers_authorization req = Some (Bearer token) /\
    jwt_verify token secret now = inr u /\
    u = claims token /\
    findById [("id", get u "id")] = inr (Some user).
Proof.
  unfold AuthMiddleware.authMiddleware.
  destruct (AuthMiddleware.try_body _ _ _ _ _) as [e|decoded] eqn:Htry;
    [intros H; by apply catch_block_never_next in H|].
  intros [= <-].
  destruct (try_body_decoded _ _ _ _ Htry) as (token & user & Hheader & Hverify & Hfound).
  exists token, user.
  split; [done|]. split; [done|]. split; [by eapply jwt_verify_claims|done].
Qed.

(** X11. Without an authorization header, or with one that does not start
    with "Bearer ", the answer is the 401 error "No token provided": the
    error thrown in the [try] goes through the [catch] as it is. *)
Theorem authMiddleware_no_bearer_token secret req now :
  (headers_authorization req = None \/
   exists value,
     headers_authorization req = Some (OtherHeader value) /\
     String.prefix "Bearer " value = false) ->
  authMiddleware secret req now = NextError (UnauthorizedError "No token provided").
Proof.
  unfold AuthMiddleware.authMiddleware, AuthMiddleware.try_body.
  intros [->|(value & -> & Hprefix)]; [done|].
  cbn [mbind option_bind bearer_token]. by rewrite Hprefix.
Qed.

(** X12. A bearer token that is not a JWT, or whose signature was made with
    another key, is answered with the 401 error "Invalid token" at any time,
    also when its life time is over: the signature comes first. *)
Theorem authMiddleware_wrong_signature secret token now :
  (forall payload, token <> Jwt payload secret) ->
  authMiddleware secret (mkRequest (Some (Bearer token))) now =
    NextError (UnauthorizedError "Invalid token").
Proof.
  intros Hkey.
  unfold AuthMiddleware.authMiddleware, AuthMiddleware.try_body, jwt_verify.
  cbn [headers_authorization mbind option_bind bearer_token].
  destruct token as [payload key|raw]; [|done].
  destruct (String.eqb_spec key secret) as [->|Hne]; [by destruct (Hkey payload)|].
  done.
Qed.

(** X13. The access token of a login is answered with the 401 error "Token
    expired" from the second of the login plus JWT_EXPIRES_IN on, without
    the repository being asked. *)
Theorem authMiddleware_expired_login_token
    bcrypt_compare sha256_hex env uname password now now' w r w1 :
  AuthService.login makeUserRepository bcrypt_compare sha256_hex env uname password now w =
    Resolved r w1 ->
  clockTimestamp now + JWT_EXPIRES_IN env <= clockTimestamp now' ->
  authMiddleware (JWT_SECRET env) (mkRequest (Some (Bearer (accessToken r)))) now' =
    NextError (UnauthorizedError "Token expired").
Proof.
  intros Hlogin Hover.
  destruct (login_resolved_inv _ _ _ _ _ _ _ _ _ Hlogin) as (id & u & Hfind & Hstatus & Hpw).
  rewrite (login_success _ _ _ _ _ _ _ _ _ Hfind Hstatus Hpw) in Hlogin.
  injection Hlogin as <- <-. cbn [accessToken].
  unfold AuthMiddleware.authMiddleware, AuthMiddleware.try_body, jwt_verify, jwt_sign.
  cbn [headers_authorization mbind option_bind bearer_token]. rewrite String.eqb_refl. cbn.
  by rewrite (proj2 (Z.leb_le _ _) Hover).
Qed.

End AuthMiddlewareFurther.

(** ** The error handler *)

(** X14. Outside development an error that is not operational is answered
    with the text "Internal server error" and without a stack: the response
    is the same for any two such errors with the same status code, whatever
    their messages and stacks are. *)
Theorem errorHandler_hides_internal_errors env_name err err' req :
  env_name <> "development" ->
  ErrorHandler.isOperational err = false ->
  ErrorHandler.isOperational err' = false ->
  ErrorHandler.statusCode err' = ErrorHandler.statusCode err ->
  (ErrorHandler.errorHandler env_name err' req).2 =
    (ErrorHandler.errorHandler env_name err req).2 /\
  ErrorHandler.res_error (ErrorHandler.errorHandler env_name err req).2 =
    "Internal server error" /\
  ErrorHandler.res_stack (ErrorHandler.errorHandler env_name err req).2 = None.
Proof.
  intros Hdev Hop Hop' Hcode. unfold ErrorHandler.errorHandler. cbn.
  rewrite Hop, Hop', Hcode, (proj2 (String.eqb_neq _ _) Hdev). done.
Qed.

(** X15. A request whose token verifies but for which the repository finds
    no record ends, outside development, in the response 500 "Internal
    server error", not in a 401. *)
Theorem missing_record_answered_with_500
    StringToNumber findById secret token now decoded env_name stack req :
  jwt_verify token secret now = inr decoded ->
  findById [("id", get decoded "id")] = inr None ->
  env_name <> "development" ->
  exists e,
    AuthMiddleware.authMiddleware StringToNumber secret findById
      (mkRequest (Some (Bearer token))) now = NextError e /\
    (ErrorHandler.errorHandler env_name (ErrorHandler.error_object e stack) req).2 =
      {| ErrorHandler.res_status := 500;
         ErrorHandler.res_success := false;
         ErrorHandler.res_error := "Internal server error";
         ErrorHandler.res_stack := None |}.
Proof.
  intros Hverify Hnull Hdev.
  exists (TypeError "Cannot read properties of null (reading 'refresh_version')").
  unfold AuthMiddleware.authMiddleware, AuthMiddleware.try_body.
  cbn [headers_authorization mbind option_bind bearer_token].
  rewrite Hverify, Hnull. split; [done|].
  unfold ErrorHandler.errorHandler. cbn.
  by rewrite (proj2 (String.eqb_neq _ _) Hdev).
Qed.

(** X24. Every limiter answers a request over the limit with status 429, and
    the [retryAfter] it names is the first whole second that is not before
    the time at which the window is reset. *)
Theorem limiter_handler_retry_after limiter resetTime :
  limit_status (limiter_handler limiter resetTime) = 429 /\
  1000 * (retryAfter (limiter_handler limiter resetTime) - 1) < resetTime /\
  resetTime <= 1000 * retryAfter (limiter_handler limiter resetTime).
Proof.
  split; [done|]. cbn [retryAfter limiter_handler]. unfold ceil_seconds.
  pose proof (Z.div_mod (- resetTime) 1000 ltac:(done)).
  pose proof (Z.mod_pos_bound (- resetTime) 1000 ltac:(done)).
  lia.
Qed.

(** ** The validation middleware *)

Section ValidateProperties.

Variables V D : Type.

(** X21. When the schema has a shape, the parts of the request that the
    shape does not declare play no part in the validation: two requests that
    agree on the declared parts pass or fail alike, with the same error. *)
Theorem validate_ignores_undeclared_parts
    (schema : Validate.Schema V) (opts : Validate.Opts D) sh
    (req1 req2 : Validate.ValidatedRequest V) :
  Validate.shape V schema = Some sh ->
  (Validate.shape_body sh = true -> Validate.req_body V req1 = Validate.req_body V req2) ->
  (Validate.shape_query sh = true -> Validate.req_query V req1 = Validate.req_query V req2) ->
  (Validate.shape_params sh = true ->
   Validate.req_params V req1 = Validate.req_params V req2) ->
  Validate.next_error V D (Validate.validate V D schema opts req1) =
    Validate.next_error V D (Validate.validate V D schema opts req2) /\
  (Validate.next_error V D (Validate.validate V D schema opts req1) = None ->
   Validate.req_validated V (Validate.request V D (Validate.validate V D schema opts req1)) =
     Validate.req_validated V (Validate.request V D (Validate.validate V D schema opts req2))).
Proof.
  intros Hshape Hbody Hquery Hparams.
  assert (Validate.build_input V schema req1 = Validate.build_input V schema req2) as Hinput.
  { unfold Validate.build_input. rewrite Hshape.
    destruct (Validate.shape_body sh), (Validate.shape_query sh), (Validate.shape_params sh);
      f_equal; auto. }
  unfold Validate.validate. rewrite Hinput.
  destruct (Validate.safeParseAsync V schema (Validate.build_input V schema req2));
    [|done].
  split; [done|]. intros _. by destruct (default false (Validate.assign D opts)).
Qed.

(** X22. The middleware changes [req.body], [req.query] and [req.params]
    only when [assign] is set and the parse has succeeded, and even then it
    never removes a part that the request had. *)
Theorem validate_keeps_request_parts
    (schema : Validate.Schema V) (opts : Validate.Opts D) (req : Validate.ValidatedRequest V) :
  (Validate.assign D opts <> Some true \/
   Validate.next_error V D (Validate.validate V D schema opts req) <> None ->
   Validate.req_body V (Validate.request V D (Validate.validate V D schema opts req)) =
     Validate.req_body V req /\
   Validate.req_query V (Validate.request V D (Validate.validate V D schema opts req)) =
     Validate.req_query V req /\
   Validate.req_params V (Validate.request V D (Validate.validate V D schema opts req)) =
     Validate.req_params V req) /\
  (is_Some (Validate.req_body V req) ->
   is_Some (Validate.req_body V
              (Validate.request V D (Validate.validate V D schema opts req)))) /\
  (is_Some (Validate.req_query V req) ->
   is_Some (Validate.req_query V
              (Validate.request V D (Validate.validate V D schema opts req)))) /\
  (is_Some (Validate.req_params V req) ->
   is_Some (Validate.req_params V
              (Validate.request V D (Validate.validate V D schema opts req)))).
Proof.
  unfold Validate.validate.
  destruct (Validate.safeParseAsync V schema (Validate.build_input V schema req))
    as [data|issues]; cbn; [|by auto].
  destruct (Validate.assign D opts) as [[|]|]; cbn.
  - split; [by intros [?|?]|].
    destruct (Validate.body V data), (Validate.query V data), (Validate.params V data);
      repeat split; eauto.
  - auto.
  - auto.
Qed.

End ValidateProperties.

(** ** The auth controller *)

Section AuthControllerProperties.

Variable bcrypt_compare : string -> string -> bool.
Variable sha256_hex : Token -> string.
Variable env : Env.
Variable cookieEnv : CookieEnv.
Variable parseExpiryToMs : Z -> Z.

Local Abbreviation controller_login :=
  (AuthController.login makeUserRepository bcrypt_compare sha256_hex env cookieEnv
     parseExpiryToMs).

Lemma login_rejects_invalid_credentials uname password now w :
  (find_by_username (users w) uname = None \/
   exists id u,
     find_by_username (users w) uname = Some (id, u) /\
     (status u = DELETED \/ bcrypt_compare password (passwordHash u) = false)) ->
  AuthService.login makeUserRepository bcrypt_compare sha256_hex env uname password now w =
    Rejected InvalidCredentials w.
Proof.
  unfold AuthService.login, await, throw.
  cbn [findByUsernameForAuth update makeUserRepository].
  unfold userRepository_findByUsernameForAuth.
  intros [->|(id & u & -> & [Hdeleted|Hpw])]; [done|..]; cbn [fst snd].
  - by rewrite bool_decide_eq_true_2.
  - rewrite Hpw. by case_bool_decide.
Qed.

(** X16. A login for a user name that nobody has, for a deleted account and
    with a wrong password all end the same way: nothing is written, no
    cookie is set, the error goes to [next], and the error handler answers
    it, outside development, with 401 "Invalid credentials". *)
Theorem login_failures_answered_alike uname password now w env_name stack req :
  (find_by_username (users w) uname = None \/
   exists id u,
     find_by_username (users w) uname = Some (id, u) /\
     (status u = DELETED \/ bcrypt_compare password (passwordHash u) = false)) ->
  env_name <> "development" ->
  exists e,
    controller_login uname password now w = Resolved (NextWith e) w /\
    (ErrorHandler.errorHandler env_name (ErrorHandler.error_object e stack) req).2 =
      {| ErrorHandler.res_status := 401;
         ErrorHandler.res_success := false;
         ErrorHandler.res_error := "Invalid credentials";
         ErrorHandler.res_stack := None |}.
Proof.
  intros Hcase Hdev. exists InvalidCredentials. split.
  - unfold AuthController.login, catch_next, await.
    by rewrite login_rejects_invalid_credentials.
  - unfold ErrorHandler.errorHandler. cbn.
    by rewrite (proj2 (String.eqb_neq _ _) Hdev).
Qed.

(** X17. Without a refresh token cookie, or with an empty one, the
    controller answers 401 "Refresh token not found" by itself: the service
    is not called, whatever its repository is, nothing is written and
    nothing is passed to [next]. *)
Theorem refresh_without_cookie userRepository cookie now w :
  cookie = None \/ cookie = Some (Opaque "") ->
  AuthController.refreshToken userRepository sha256_hex env cookie now w =
    Resolved
      (Sent {| res_cookies := [];
               res_statusCode := 401;
               res_json := JsonObject [("success", JsonBool false);
                                       ("error", JsonString "Refresh token not found")] |})
      w.
Proof. by intros [->| ->]. Qed.

(** X18. The options with which logout clears the cookie are the attributes
    with which login has set it exactly when no cookie domain is configured
    and, outside production, COOKIE_SECURE is not on: with a cookie domain,
    or with secure cookies on a server that is not in production, the
    cookie that logout names is not the cookie of the login. *)
Theorem logout_cookie_matches_login_cookie :
  same_cookie_attributes
    (AuthController.login_cookie_options env cookieEnv parseExpiryToMs)
    (AuthController.logout_cookie_options cookieEnv) = true <->
  COOKIE_DOMAIN cookieEnv = None /\
  (NODE_ENV cookieEnv = "production" \/ COOKIE_SECURE cookieEnv <> Some true).
Proof.
  unfold same_cookie_attributes, AuthController.login_cookie_options,
    AuthController.logout_cookie_options. cbn.
  destruct (String.eqb_spec (NODE_ENV cookieEnv) "production") as [Hprod|Hprod];
    destruct (COOKIE_DOMAIN cookieEnv) as [d|], (COOKIE_SECURE cookieEnv) as [[|]|];
    cbn; split; try done; try (intros [? _]; done); try (intros [_ [?|?]]; done);
    intros _; split; auto; right; done.
Qed.

(** X19. The cookie that a successful login sets is called refreshToken,
    holds the refresh token of that login, whose digest is the hash stored
    for the account, is not readable by scripts and is sent to the auth
    routes only; the body of the answer holds the access token and the
    user. The controller of the refresh route, given that cookie, passes
    InvalidRefreshToken to [next]. *)
Theorem login_cookie_holds_refresh_token uname password now now' w id u :
  find_by_username (users w) uname = Some (id, u) ->
  status u = ACTIVE ->
  bcrypt_compare password (passwordHash u) = true ->
  exists r w1 options,
    AuthService.login makeUserRepository bcrypt_compare sha256_hex env uname password now w =
      Resolved r w1 /\
    controller_login uname password now w =
      Resolved
        (Sent {| res_cookies := [SetCookie "refreshToken" (refreshToken r) options];
                 res_statusCode := 200;
                 res_json :=
                   JsonObject
                     [("success", JsonBool true);
                      ("data",
                       JsonObject [("accessToken", JsonToken (accessToken r));
                                   ("user", json_of_object (user r))])] |}) w1 /\
    httpOnly options = true /\ path options = "/api/v1/auth" /\
    refreshTokenHash <$> users w1 !! id = Some (Some (sha256_hex (refreshToken r))) /\
    AuthController.refreshToken makeUserRepository sha256_hex env
      (Some (refreshToken r)) now' w1 = Resolved (NextWith InvalidRefreshToken) w1.
Proof.
  intros Hfind Hstatus Hpw.
  unfold AuthController.login, AuthController.refreshToken, catch_next, await.
  rewrite (login_success _ _ _ _ _ _ _ _ _ Hfind Hstatus Hpw).
  eexists _, _, _. split; [reflexivity|]. split; [reflexivity|].
  split; [reflexivity|]. split; [reflexivity|].
  cbn [users refreshToken]. split; [by rewrite lookup_insert_eq|].
  unfold jwt_sign at 1.
  erewrite refresh_rejects_known; reflexivity.
Qed.

(** X20. Logging out ends the session: for a [req.user] whose [userId] is
    the id of an account, the controller logs that account out, answers 200
    and clears the cookie; the hash stored for the account is null then, the
    other accounts are as they were, and from then on the refresh route
    passes InvalidRefreshToken to [next] for every token that names the
    account, whatever columns [findById] selects. *)
Theorem logout_ends_session extra req_user id u token now w :
  get req_user "userId" = JStr id ->
  users w !! id = Some u ->
  get (claims token) "userId" = JStr id ->
  exists w2,
    AuthController.logout (repository_selecting extra) cookieEnv (Some req_user) w =
      Resolved
        (Sent {| res_cookies :=
                   [ClearCookie "refreshToken" (AuthController.logout_cookie_options cookieEnv)];
                 res_statusCode := 200;
                 res_json := JsonObject [("success", JsonBool true);
                                         ("message", JsonString "Logged out successfully")] |})
        w2 /\
    refreshTokenHash <$> users w2 !! id = Some None /\
    (forall j, j <> id -> users w2 !! j = users w !! j) /\
    AuthController.refreshToken (repository_selecting extra) sha256_hex env
      (Some token) now w2 = Resolved (NextWith InvalidRefreshToken) w2.
Proof.
  intros Hid Hlook Htoken.
  unfold AuthController.logout, AuthController.refreshToken, catch_next, await.
  rewrite Hid, logout_selecting.
  erewrite logout_success by exact Hlook.
  eexists. split; [reflexivity|]. cbn [users].
  split; [by rewrite lookup_insert_eq|].
  split; [intros j Hj; by apply lookup_insert_ne|].
  destruct token as [payload key|raw]; [|done].
  erewrite refresh_rejects_null_hash;
    [reflexivity|exact Htoken|cbn; apply lookup_insert_eq|done].
Qed.

End AuthControllerProperties.

(** ** The users router *)

Section UsersRouterProperties.

Variable StringToNumber : string -> option Z.
Variable findById : JsObject -> JsError + option UserObject.


End UsersRouterProperties.

(** ** The further properties at the sample data *)

Lemma login_rejected_writes_nothing_witness :
  exists e w1,
    AuthService.login makeUserRepository stub_compare stub_digest test_env
      "alice" "wrong" t0 world0 = Rejected e w1 /\
    w1 = world0 /\ (e = InvalidCredentials \/ e = AccountNotActive).
Proof.
  eexists _, _. split; [vm_compute; reflexivity|].
  apply (login_rejected_writes_nothing stub_compare stub_digest test_env
           "alice" "wrong" t0 world0).
  vm_compute. reflexivity.
Defined.

Lemma login_wrong_password_invalid_credentials_witness :
  AuthService.login makeUserRepository stub_compare stub_digest test_env
    "carol" "guess" t0 world_suspended = Rejected InvalidCredentials world_suspended.
Proof.
  apply (login_wrong_password_invalid_credentials stub_compare stub_digest test_env
           "carol" "guess" t0 world_suspended "u2" carol); reflexivity.
Defined.

Lemma login_writes_only_session_columns_witness :
  exists r w1 id u u1,
    AuthService.login makeUserRepository stub_compare stub_digest test_env
      "alice" "correct" t0 world_two = Resolved r w1 /\
    users world_two !! id = Some u /\ users w1 !! id = Some u1 /\
    (forall j, j <> id -> users w1 !! j = users world_two !! j) /\
    passwordHash u1 = passwordHash u /\
    refreshTokenVersion u1 = refreshTokenVersion u /\
    createdAt u1 = createdAt u /\
    refreshTokenHash u1 = Some (stub_digest (refreshToken r)) /\
    lastLoginAt u1 = Some t0.
Proof.
  eexists _, _.
  assert (Hlogin :
    AuthService.login makeUserRepository stub_compare stub_digest test_env
      "alice" "correct" t0 world_two =
      Resolved
        {| accessToken := alice_access_token;
           refreshToken := alice_refresh_token;
           user := [("id", JStr "u1"); ("email", JStr "alice@example.com");
                    ("username", JStr "alice"); ("name", JStr "Alice");
                    ("role", JStr "USER")] |}
        {| users :=
             <["u1" := apply_update
                         {| data_refreshTokenHash :=
                              Some (Some (stub_digest alice_refresh_token));
                            data_lastLoginAt := Some t0 |} alice]> (users world_two);
           logs := [([("userId", JStr "u1")], "User logged in")] |})
    by (vm_compute; reflexivity).
  destruct (login_writes_only_session_columns stub_compare stub_digest test_env
              "alice" "correct" t0 world_two _ _ Hlogin)
    as (id & u & u1 & Hu & Hu1 & Hframe & _ & _ & _ & _ & _ & Hpw & Hver & Hcreated &
        Hhash & Hlast & _).
  exists id, u, u1. split; [exact Hlogin|]. auto 10.
Defined.


Lemma refresh_rejected_for_inactive_account_witness :
  AuthService.refreshToken whole_record_repository stub_digest test_env
    (jwt_sign [("userId", JStr "u2")] "refresh-secret" 604800 t0) (t0 + 1000)
    {| users :=
         {[ "u2" := apply_update
                      {| data_refreshTokenHash :=
                           Some (Some (stub_digest
                                         (jwt_sign [("userId", JStr "u2")]
                                                   "refresh-secret" 604800 t0)));
                         data_lastLoginAt := None |} carol ]};
       logs := [] |} =
    Rejected InvalidRefreshToken
      {| users :=
           {[ "u2" := apply_update
                        {| data_refreshTokenHash :=
                             Some (Some (stub_digest
                                           (jwt_sign [("userId", JStr "u2")]
                                                     "refresh-secret" 604800 t0)));
                           data_lastLoginAt := None |} carol ]};
         logs := [] |}.
Proof.
  apply (refresh_rejected_for_inactive_account stub_digest test_env
           ["passwordHash"; "refreshTokenHash"; "refreshTokenVersion"]
           (jwt_sign [("userId", JStr "u2")] "refresh-secret" 604800 t0) (t0 + 1000)
           _ "u2"
           (apply_update
              {| data_refreshTokenHash :=
                   Some (Some (stub_digest
                                 (jwt_sign [("userId", JStr "u2")]
                                           "refresh-secret" 604800 t0)));
                 data_lastLoginAt := None |} carol));
    [reflexivity|reflexivity|done].
Defined.

Lemma refresh_token_life_time_witness :
  (exists t,
     AuthService.refreshToken whole_record_repository stub_digest test_env
       alice_refresh_token (t0 + 604799000) world1 = Resolved t world1) /\
  ~ (exists t,
       AuthService.refreshToken whole_record_repository stub_digest test_env
         alice_refresh_token (t0 + 604800000) world1 = Resolved t world1).
Proof.
  assert (Hselected :
    "refreshTokenHash" ∈ ["passwordHash"; "refreshTokenHash"; "refreshTokenVersion"])
    by (right; left).
  assert (Hlogin :
    AuthService.login whole_record_repository stub_compare stub_digest test_env
      "alice" "correct" t0 world0 =
      Resolved
        {| accessToken := alice_access_token;
           refreshToken := alice_refresh_token;
           user := [("id", JStr "u1"); ("email", JStr "alice@example.com");
                    ("username", JStr "alice"); ("name", JStr "Alice");
                    ("role", JStr "USER")] |}
        world1)
    by (vm_compute; reflexivity).
  split.
  - apply (refresh_token_life_time stub_compare stub_digest test_env _
             "alice" "correct" t0 (t0 + 604799000) world0 _ world1 Hselected Hlogin).
    vm_compute. reflexivity.
  - intros Hrefresh.
    apply (refresh_token_life_time stub_compare stub_digest test_env _
             "alice" "correct" t0 (t0 + 604800000) world0 _ world1 Hselected Hlogin)
      in Hrefresh.
    vm_compute in Hrefresh. discriminate.
Defined.

Lemma other_sessions_untouched_witness :
  exists r w1 w2 t,
    AuthService.login whole_record_repository stub_compare stub_digest test_env
      "alice" "correct" t0 world_two = Resolved r w1 /\
    AuthService.logout whole_record_repository "u1" w1 = Resolved tt w2 /\
    settled (AuthService.refreshToken whole_record_repository stub_digest test_env
               dave_refresh_token (t0 + 1000) world_two) = inr t /\
    settled (AuthService.refreshToken whole_record_repository stub_digest test_env
               dave_refresh_token (t0 + 1000) w1) =
      settled (AuthService.refreshToken whole_record_repository stub_digest test_env
                 dave_refresh_token (t0 + 1000) world_two) /\
    settled (AuthService.refreshToken whole_record_repository stub_digest test_env
               dave_refresh_token (t0 + 1000) w2) =
      settled (AuthService.refreshToken whole_record_repository stub_digest test_env
                 dave_refresh_token (t0 + 1000) world_two).
Proof.
  eexists _, _, _, _.
  split; [vm_compute; reflexivity|]. split; [vm_compute; reflexivity|].
  split; [vm_compute; reflexivity|].
  eapply (other_sessions_untouched stub_compare stub_digest test_env
            ["passwordHash"; "refreshTokenHash"; "refreshTokenVersion"]
            "alice" "correct" t0 "u1" world_two _ _ _ dave_refresh_token (t0 + 1000)).
  - intros b Hb. vm_compute in Hb. by injection Hb as <-.
  - vm_compute. reflexivity.
  - reflexivity.
  - vm_compute. reflexivity.
Defined.

Lemma authMiddleware_accepts_only_verified_witness :
  exists token user,
    Some (Bearer alice_access_token) = Some (Bearer token) /\
    jwt_verify token "access-secret" (t0 + 60000) = inr (claims alice_access_token) /\
    claims alice_access_token = claims token /\
    stub_findAlice [("id", get (claims alice_access_token) "id")] = inr (Some user).
Proof.
  apply (authMiddleware_accepts_only_verified stub_StringToNumber stub_findAlice
           "access-secret" (mkRequest (Some (Bearer alice_access_token))) (t0 + 60000)
           (claims alice_access_token)).
  vm_compute. reflexivity.
Defined.

Lemma authMiddleware_no_bearer_token_witness :
  AuthMiddleware.authMiddleware stub_StringToNumber "access-secret" stub_findAlice
    (mkRequest (Some (OtherHeader "Basic YWxpY2U6Y29ycmVjdA=="))) t0 =
    NextError (UnauthorizedError "No token provided").
Proof.
  apply (authMiddleware_no_bearer_token stub_StringToNumber stub_findAlice
           "access-secret" (mkRequest (Some (OtherHeader "Basic YWxpY2U6Y29ycmVjdA==")))
           t0).
  right. eexists. split; reflexivity.
Defined.

Lemma authMiddleware_wrong_signature_witness :
  AuthMiddleware.authMiddleware stub_StringToNumber "access-secret" stub_findAlice
    (mkRequest (Some (Bearer alice_refresh_token))) (t0 + 60000) =
    NextError (UnauthorizedError "Invalid token").
Proof.
  apply (authMiddleware_wrong_signature stub_StringToNumber stub_findAlice
           "access-secret" alice_refresh_token (t0 + 60000)).
  intros payload. vm_compute. discriminate.
Defined.

Lemma authMiddleware_expired_login_token_witness :
  AuthMiddleware.authMiddleware stub_StringToNumber "access-secret" stub_findAlice
    (mkRequest (Some (Bearer alice_access_token))) (t0 + 900000) =
    NextError (UnauthorizedError "Token expired").
Proof.
  apply (authMiddleware_expired_login_token stub_StringToNumber stub_findAlice
           stub_compare stub_digest test_env "alice" "correct" t0 (t0 + 900000) world0
           {| accessToken := alice_access_token;
              refreshToken := alice_refresh_token;
              user := [("id", JStr "u1"); ("email", JStr "alice@example.com");
                       ("username", JStr "alice"); ("name", JStr "Alice");
                       ("role", JStr "USER")] |}
           world1); [vm_compute; reflexivity|vm_compute; discriminate].
Defined.

Lemma errorHandler_hides_internal_errors_witness :
  (ErrorHandler.errorHandler "production"
     (ErrorHandler.error_object (PrismaClientError "Record to update not found") "at update")
     (ErrorHandler.mkErrorRequest "/api/v1/auth/logout" "POST" None)).2 =
    (ErrorHandler.errorHandler "production"
       (ErrorHandler.error_object (TypeError "Cannot read properties of null") "at auth")
       (ErrorHandler.mkErrorRequest "/api/v1/auth/logout" "POST" None)).2 /\
  ErrorHandler.res_error
    (ErrorHandler.errorHandler "production"
       (ErrorHandler.error_object (TypeError "Cannot read properties of null") "at auth")
       (ErrorHandler.mkErrorRequest "/api/v1/auth/logout" "POST" None)).2 =
    "Internal server error" /\
  ErrorHandler.res_stack
    (ErrorHandler.errorHandler "production"
       (ErrorHandler.error_object (TypeError "Cannot read properties of null") "at auth")
       (ErrorHandler.mkErrorRequest "/api/v1/auth/logout" "POST" None)).2 = None.
Proof.
  apply (errorHandler_hides_internal_errors "production"
           (ErrorHandler.error_object (TypeError "Cannot read properties of null") "at auth")
           (ErrorHandler.error_object (PrismaClientError "Record to update not found")
                                      "at update")
           (ErrorHandler.mkErrorRequest "/api/v1/auth/logout" "POST" None));
    done.
Defined.

Lemma missing_record_answered_with_500_witness :
  exists e,
    AuthMiddleware.authMiddleware stub_StringToNumber "access-secret" stub_findNobody
      (mkRequest (Some (Bearer alice_access_token))) (t0 + 60000) = NextError e /\
    (ErrorHandler.errorHandler "production" (ErrorHandler.error_object e "at auth")
       (ErrorHandler.mkErrorRequest "/api/v1/users" "GET" None)).2 =
      {| ErrorHandler.res_status := 500;
         ErrorHandler.res_success := false;
         ErrorHandler.res_error := "Internal server error";
         ErrorHandler.res_stack := None |}.
Proof.
  apply (missing_record_answered_with_500 stub_StringToNumber stub_findNobody
           "access-secret" alice_access_token (t0 + 60000) (claims alice_access_token)
           "production" "at auth" (ErrorHandler.mkErrorRequest "/api/v1/users" "GET" None));
    [vm_compute; reflexivity|reflexivity|done].
Defined.

Lemma login_failures_answered_alike_witness :
  exists e,
    AuthController.login makeUserRepository stub_compare stub_digest test_env
      production_cookie_env stub_parseExpiryToMs "bob" "anything" t0 world0 =
      Resolved (NextWith e) world0 /\
    (ErrorHandler.errorHandler "production" (ErrorHandler.error_object e "at login")
       (ErrorHandler.mkErrorRequest "/api/v1/auth/login" "POST" None)).2 =
      {| ErrorHandler.res_status := 401;
         ErrorHandler.res_success := false;
         ErrorHandler.res_error := "Invalid credentials";
         ErrorHandler.res_stack := None |}.
Proof.
  apply (login_failures_answered_alike stub_compare stub_digest test_env
           production_cookie_env stub_parseExpiryToMs "bob" "anything" t0 world0
           "production" "at login"
           (ErrorHandler.mkErrorRequest "/api/v1/auth/login" "POST" None));
    [left; reflexivity|done].
Defined.

Lemma refresh_without_cookie_witness :
  AuthController.refreshToken makeUserRepository stub_digest test_env None t0 world1 =
    Resolved
      (Sent {| res_cookies := [];
               res_statusCode := 401;
               res_json := JsonObject [("success", JsonBool false);
                                       ("error", JsonString "Refresh token not found")] |})
      world1.
Proof.
  apply (refresh_without_cookie stub_digest test_env makeUserRepository None t0 world1).
  by left.
Defined.

Lemma login_cookie_holds_refresh_token_witness :
  exists r w1 options,
    AuthService.login makeUserRepository stub_compare stub_digest test_env
      "alice" "correct" t0 world0 = Resolved r w1 /\
    AuthController.login makeUserRepository stub_compare stub_digest test_env
      test_cookie_env stub_parseExpiryToMs "alice" "correct" t0 world0 =
      Resolved
        (Sent {| res_cookies := [SetCookie "refreshToken" (refreshToken r) options];
                 res_statusCode := 200;
                 res_json :=
                   JsonObject
                     [("success", JsonBool true);
                      ("data",
                       JsonObject [("accessToken", JsonToken (accessToken r));
                                   ("user", json_of_object (user r))])] |}) w1 /\
    httpOnly options = true /\ path options = "/api/v1/auth" /\
    refreshTokenHash <$> users w1 !! "u1" = Some (Some (stub_digest (refreshToken r))) /\
    AuthController.refreshToken makeUserRepository stub_digest test_env
      (Some (refreshToken r)) (t0 + 1000) w1 = Resolved (NextWith InvalidRefreshToken) w1.
Proof.
  apply (login_cookie_holds_refresh_token stub_compare stub_digest test_env test_cookie_env
           stub_parseExpiryToMs "alice" "correct" t0 (t0 + 1000) world0 "u1" alice);
    reflexivity.
Defined.

Lemma logout_ends_session_witness :
  exists w2,
    AuthController.logout whole_record_repository test_cookie_env
      (Some (claims alice_access_token)) world1 =
      Resolved
        (Sent {| res_cookies :=
                   [ClearCookie "refreshToken"
                      (AuthController.logout_cookie_options test_cookie_env)];
                 res_statusCode := 200;
                 res_json := JsonObject [("success", JsonBool true);
                                         ("message", JsonString "Logged out successfully")] |})
        w2 /\
    refreshTokenHash <$> users w2 !! "u1" = Some None /\
    (forall j, j <> "u1" -> users w2 !! j = users world1 !! j) /\
    AuthController.refreshToken whole_record_repository stub_digest test_env
      (Some alice_refresh_token) (t0 + 120000) w2 =
      Resolved (NextWith InvalidRefreshToken) w2.
Proof.
  apply (logout_ends_session stub_digest test_env test_cookie_env
           ["passwordHash"; "refreshTokenHash"; "refreshTokenVersion"]
           (claims alice_access_token) "u1"
           (apply_update
              {| data_refreshTokenHash := Some (Some (stub_digest alice_refresh_token));
                 data_lastLoginAt := Some t0 |} alice)
           alice_refresh_token (t0 + 120000) world1); reflexivity.
Defined.

Lemma validate_ignores_undeclared_parts_witness :
  Validate.next_error string unit
    (Validate.validate string unit body_schema default_opts
       {| Validate.req_body := Some "{}"; Validate.req_query := Some "?page=1";
          Validate.req_params := None; Validate.req_validated := None |}) =
    Validate.next_error string unit
      (Validate.validate string unit body_schema default_opts
         {| Validate.req_body := Some "{}"; Validate.req_query := None;
            Validate.req_params := Some "42"; Validate.req_validated := None |}) /\
  (Validate.next_error string unit
     (Validate.validate string unit body_schema default_opts
        {| Validate.req_body := Some "{}"; Validate.req_query := Some "?page=1";
           Validate.req_params := None; Validate.req_validated := None |}) = None ->
   Validate.req_validated string
     (Validate.request string unit
        (Validate.validate string unit body_schema default_opts
           {| Validate.req_body := Some "{}"; Validate.req_query := Some "?page=1";
              Validate.req_params := None; Validate.req_validated := None |})) =
     Validate.req_validated string
       (Validate.request string unit
          (Validate.validate string unit body_schema default_opts
             {| Validate.req_body := Some "{}"; Validate.req_query := None;
                Validate.req_params := Some "42"; Validate.req_validated := None |}))).
Proof.
  apply (validate_ignores_undeclared_parts string unit body_schema default_opts
           {| Validate.shape_body := true; Validate.shape_query := false;
              Validate.shape_params := false |});
    [reflexivity|reflexivity|discriminate|discriminate].
Defined.


Lemma same_second_same_refresh_token_witness :
  exists r1 w1 r2 w2,
    AuthService.login makeUserRepository stub_compare stub_digest test_env
      "alice" "correct" t0 world0 = Resolved r1 w1 /\
    AuthService.login makeUserRepository stub_compare stub_digest test_env
      "alice" "correct" (t0 + 300) w1 = Resolved r2 w2 /\
    refreshToken r1 = refreshToken r2.
Proof.
  eexists _, _, _, _.
  split; [vm_compute; reflexivity|]. split; [vm_compute; reflexivity|].
  eapply (same_second_same_refresh_token stub_compare stub_digest test_env
            "alice" "correct" t0 (t0 + 300) world0).
  - vm_compute. reflexivity.
  - vm_compute. reflexivity.
  - intros i j ui uj Hi Hj _. cbn [users world0] in Hi, Hj.
    apply lookup_singleton_Some in Hi as [<- _].
    apply lookup_singleton_Some in Hj as [<- _]. reflexivity.
  - vm_compute. reflexivity.
Defined.
